(** * Plan approval and the browser agent loop of gemini-cli

    A shallow embedding of

    - [packages/core/src/tools/exit-plan-mode.ts]
      ([getApprovalModeDescription], [ExitPlanModeInvocation]), and
    - [packages/core/src/agents/browser/browserAgent.ts]
      ([BrowserAgent.runTask]),

    followed by the properties of the specification that concern them. *)

From Stdlib Require Import String Ascii List Bool Arith ZArith NArith Lia.
From Stdlib Require Import DecimalString DecimalNat.
Import ListNotations.
Local Open Scope list_scope.
Local Open Scope string_scope.

(** ** JavaScript values and string helpers *)

Module Js.

(** The line feed of the template literals. *)
Definition LF : string := String (ascii_of_nat 10) EmptyString.

(** The double quote. *)
Definition QUOTE : string := String (ascii_of_nat 34) EmptyString.

(** A string is falsy exactly when it is empty. *)
Definition truthy (s : string) : bool :=
  match s with
  | EmptyString => false
  | String _ _ => true
  end.

(** Truthiness of [string | null] and [string | undefined]. *)
Definition truthy_opt (o : option string) : bool :=
  match o with
  | Some s => truthy s
  | None => false
  end.

(** [a || b] on [string | undefined] with a string default. *)
Definition or_else (o : option string) (d : string) : string :=
  match o with
  | Some s => if truthy s then s else d
  | None => d
  end.

(** [a ?? b]. *)
Definition nullish {A : Type} (o : option A) (d : A) : A :=
  match o with
  | Some a => a
  | None => d
  end.

(** What a template literal prints for a [string | undefined]. *)
Definition interpolate (o : option string) : string :=
  match o with
  | Some s => s
  | None => "undefined"
  end.

(** [hay.startsWith(needle)]. *)
Fixpoint startsWith (hay needle : string) {struct needle} : bool :=
  match needle with
  | EmptyString => true
  | String a needle' =>
      match hay with
      | EmptyString => false
      | String b hay' => Ascii.eqb a b && startsWith hay' needle'
      end
  end.

(** [hay.includes(needle)]. *)
Fixpoint includes (hay needle : string) : bool :=
  startsWith hay needle
  || match hay with
     | EmptyString => false
     | String _ rest => includes rest needle
     end.

(** [xs.join(sep)]. *)
Fixpoint join (sep : string) (xs : list string) : string :=
  match xs with
  | [] => EmptyString
  | [x] => x
  | x :: rest => x ++ sep ++ join sep rest
  end.

(** [s.slice(0, n)]. *)
Fixpoint slice_to (n : N) (s : string) : string :=
  match s with
  | EmptyString => EmptyString
  | String c rest =>
      if (n =? 0)%N then EmptyString else String c (slice_to (N.pred n) rest)
  end.

(** Values a function call's argument map can hold.  The agent only hands
    them on to the browser tools and never computes with them, so numbers
    are kept as integers. *)
Inductive value : Type :=
| Undefined
| Null
| Bool (b : bool)
| Num (z : Z)
| Str (s : string).

(** What a [catch (e)] clause receives: an [Error] with its message, or any
    other thrown value, kept as [String(e)]. *)
Inductive thrown : Type :=
| ThrownError (message : string)
| ThrownOther (text : string).

(** What a template literal prints for a number. *)
Definition decimal (n : nat) : string := NilEmpty.string_of_uint (Nat.to_uint n).

(** [e instanceof Error ? e.message : String(e)]. *)
Definition describe (e : thrown) : string :=
  match e with
  | ThrownError message => message
  | ThrownOther text => text
  end.

End Js.

(** ** Paths

    [path.resolve] belongs to Node and [isWithinRoot] to [utils/fileUtils.ts];
    neither is among the sources at hand.  The tool is modelled over any pair
    of such functions, with the one fact about [path.resolve] that the tool's
    truthiness tests depend on: it never returns the empty string (it returns
    an absolute path, or ["."] when no working directory is known). *)

Class PathApi : Type := {
  path_resolve : string -> string -> string;
  isWithinRoot : string -> string -> bool;
  path_resolve_nonempty : forall from to, path_resolve from to <> EmptyString
}.

(** A POSIX reading of [path.resolve], used to run the scenarios. *)
Module Posix.

Definition slash : ascii := ascii_of_nat 47.

(** Segments between slashes; [acc] holds the segment being read. *)
Fixpoint split_from (acc : string) (s : string) : list string :=
  match s with
  | EmptyString => [acc]
  | String c rest =>
      if Ascii.eqb c slash then acc :: split_from EmptyString rest
      else split_from (acc ++ String c EmptyString) rest
  end.

Definition split (s : string) : list string := split_from EmptyString s.

(** [normalizeString]: the stack of kept segments, innermost first. *)
Fixpoint normalize (allowAboveRoot : bool) (stack : list string)
                   (segments : list string) : list string :=
  match segments with
  | [] => stack
  | seg :: rest =>
      if (seg =? EmptyString) || (seg =? ".") then normalize allowAboveRoot stack rest
      else if seg =? ".." then
        match stack with
        | top :: below =>
            if top =? ".." then normalize allowAboveRoot (seg :: stack) rest
            else normalize allowAboveRoot below rest
        | [] =>
            if allowAboveRoot then normalize allowAboveRoot [seg] rest
            else normalize allowAboveRoot [] rest
        end
      else normalize allowAboveRoot (seg :: stack) rest
  end.

Definition isAbsolute (p : string) : bool :=
  match p with
  | String c _ => Ascii.eqb c slash
  | EmptyString => false
  end.

(** The right-to-left scan of [resolve]: the joined path and whether an
    absolute component was met. *)
Fixpoint scan (right_to_left : list string) (resolved : string)
  : string * bool :=
  match right_to_left with
  | [] => (resolved, false)
  | p :: rest =>
      if Js.truthy p then
        let resolved' := p ++ "/" ++ resolved in
        if isAbsolute p then (resolved', true) else scan rest resolved'
      else scan rest resolved
  end.

Definition resolve (cwd from to : string) : string :=
  let '(joined, absolute) := scan [to; from; cwd] EmptyString in
  let body :=
    Js.join "/" (rev (normalize (negb absolute) [] (split joined))) in
  if absolute then "/" ++ body
  else if Js.truthy body then body else ".".

(** Modelled from the spec: "a path-containment check isWithinRoot(candidate,
    root) -> bool", here containment by path prefix. *)
Definition within (candidate root : string) : bool :=
  (candidate =? root) || Js.startsWith candidate (root ++ "/").

End Posix.

(** ** exit-plan-mode.ts *)

Module ExitPlanMode.

(** Modelled from the spec: [ApprovalMode], declared in [policy/types.ts], is
    "DEFAULT | AUTO_EDIT, extensible".  The tool names these two members and
    treats every other one alike. *)
Inductive ApprovalMode : Type :=
| DEFAULT
| AUTO_EDIT
| OTHER_MODE (name : string).

(** Modelled from the spec: [ToolConfirmationOutcome], declared in
    [tools.ts], is the "enum ProceedOnce | ProceedAlways | Cancel".  The tool
    only compares with [Cancel]. *)
Inductive ToolConfirmationOutcome : Type :=
| ProceedOnce
| ProceedAlways
| Cancel.

(** Modelled from the spec: the "plan_approval payload: {approved: bool,
    approvalMode?, feedback?}", declared in [tools.ts]. *)
Record PlanApprovalConfirmationPayload : Type := {
  approved : bool;
  approvalMode : option ApprovalMode;
  feedback : option string
}.

(** Modelled from the spec: the "optional typed Payload" of an outcome,
    declared in [tools.ts] and discriminated by its [type] member. *)
Inductive ToolConfirmationPayload : Type :=
| plan_approval (payload : PlanApprovalConfirmationPayload)
| other_payload (type : string).

Record ExitPlanModeParams : Type := { plan_path : string }.

(** Modelled from the spec: the members of [Config] ([config/config.ts]) that
    the tool touches, "getProjectTempPlansDir() -> path", "getTargetDir() ->
    path" and the process-wide approval mode.  [setApprovalModeCalls] logs
    the arguments of [setApprovalMode], latest first. *)
Record Config : Type := {
  getTargetDir : string;
  getProjectTempPlansDir : string;
  getApprovalMode : ApprovalMode;
  setApprovalModeCalls : list ApprovalMode
}.

Definition setApprovalMode (mode : ApprovalMode) (config : Config) : Config :=
  {| getTargetDir := getTargetDir config;
     getProjectTempPlansDir := getProjectTempPlansDir config;
     getApprovalMode := mode;
     setApprovalModeCalls := mode :: setApprovalModeCalls config |}.

(** The two members of [ToolResult] that [execute] fills in. *)
Record ToolResult : Type := {
  llmContent : string;
  returnDisplay : string
}.

Record ExitPlanModeInvocation : Type := {
  params : ExitPlanModeParams;
  confirmationOutcome : option ToolConfirmationOutcome;
  approvalPayload : option PlanApprovalConfirmationPayload
}.

(** [new ExitPlanModeInvocation(params, ...)]. *)
Definition createInvocation (p : ExitPlanModeParams) : ExitPlanModeInvocation :=
  {| params := p; confirmationOutcome := None; approvalPayload := None |}.

Definition getApprovalModeDescription (mode : ApprovalMode) : string :=
  match mode with
  | AUTO_EDIT => "Auto-Edit mode (edits will be applied automatically)"
  | _ => "Default mode (edits will require confirmation)"
  end.

Record ToolPlanApprovalConfirmationDetails : Type := {
  type : string;
  title : string;
  planPath : string
}.

Section WithPaths.
Context {paths : PathApi}.

Definition getValidatedPlanPath (config : Config)
           (this : ExitPlanModeInvocation) : option string :=
  let plansDir := getProjectTempPlansDir config in
  let resolvedPath :=
    path_resolve (getTargetDir config) (plan_path (params this)) in
  if isWithinRoot resolvedPath plansDir then Some resolvedPath else None.

(** [None] stands for the [false] of "no confirmation needed". *)
Definition shouldConfirmExecute (config : Config)
           (this : ExitPlanModeInvocation)
  : option ToolPlanApprovalConfirmationDetails :=
  let resolvedPlanPath := getValidatedPlanPath config this in
  if negb (Js.truthy_opt resolvedPlanPath) then None
  else
    Some {| type := "plan_approval";
            title := "Plan Approval";
            planPath := Js.nullish resolvedPlanPath EmptyString |}.

(** The [onConfirm] callback of the details, a closure over [this]. *)
Definition onConfirm (outcome : ToolConfirmationOutcome)
           (payload : option ToolConfirmationPayload)
           (this : ExitPlanModeInvocation) : ExitPlanModeInvocation :=
  {| params := params this;
     confirmationOutcome := Some outcome;
     approvalPayload :=
       match payload with
       | Some (plan_approval p) => Some p
       | _ => approvalPayload this
       end |}.

Definition outsidePlansDir : ToolResult :=
  {| llmContent :=
       "Error: Plan path is outside the designated plans directory.";
     returnDisplay :=
       "Error: Plan path is outside the designated plans directory." |}.

Definition cancelled : ToolResult :=
  {| llmContent :=
       "User cancelled the plan approval dialog. The plan was not approved and you are still in Plan Mode.";
     returnDisplay := "Cancelled" |}.

Definition planApproved (description resolvedPlanPath : string) : ToolResult :=
  {| llmContent :=
       "Plan approved. Switching to " ++ description ++ "." ++ Js.LF
       ++ Js.LF
       ++ "The approved implementation plan is stored at: "
       ++ resolvedPlanPath ++ Js.LF
       ++ "Read and follow the plan strictly during implementation.";
     returnDisplay := "Plan approved: " ++ resolvedPlanPath |}.

Definition planRejected (feedback resolvedPlanPath : string) : ToolResult :=
  {| llmContent :=
       "Plan rejected. Feedback: " ++ feedback ++ Js.LF
       ++ Js.LF
       ++ "The plan is stored at: " ++ resolvedPlanPath ++ Js.LF
       ++ "Revise the plan based on the feedback.";
     returnDisplay := "Feedback: " ++ feedback |}.

Definition isCancel (o : option ToolConfirmationOutcome) : bool :=
  match o with
  | Some Cancel => true
  | _ => false
  end.

(** [execute]: the result together with the configuration it leaves. *)
Definition execute (config : Config) (this : ExitPlanModeInvocation)
  : ToolResult * Config :=
  let resolvedPlanPath := getValidatedPlanPath config this in
  if negb (Js.truthy_opt resolvedPlanPath) then (outsidePlansDir, config)
  else
    let resolvedPlanPath := Js.nullish resolvedPlanPath EmptyString in
    if isCancel (confirmationOutcome this) then (cancelled, config)
    else
      let payload := approvalPayload this in
      if match payload with Some p => approved p | None => false end then
        let newMode :=
          Js.nullish
            (match payload with Some p => approvalMode p | None => None end)
            DEFAULT in
        let config' := setApprovalMode newMode config in
        let description := getApprovalModeDescription newMode in
        (planApproved description resolvedPlanPath, config')
      else
        let feedback :=
          Js.or_else
            (match payload with Some p => feedback p | None => None end)
            "None" in
        (planRejected feedback resolvedPlanPath, config).

(** *** Vocabulary of the properties *)

(** [resolve(targetDir, plan_path)]. *)
Definition resolvedPath (config : Config) (this : ExitPlanModeInvocation)
  : string :=
  path_resolve (getTargetDir config) (plan_path (params this)).

(** The plan path resolves inside the plans directory. *)
Definition withinPlansDir (config : Config) (this : ExitPlanModeInvocation)
  : bool :=
  isWithinRoot (resolvedPath config this) (getProjectTempPlansDir config).

(** An error result, told the way [execute] marks its one error. *)
Definition isErrorResult (r : ToolResult) : bool :=
  Js.startsWith (llmContent r) "Error:".

End WithPaths.

End ExitPlanMode.


(** ** browserAgent.ts *)

Module BrowserAgent.

(** *** Conversation data *)

Record SafetyDecision : Type := {
  decision : string;
  explanation : string
}.

(** [call.args], read through the cast in [runTask]: the optional
    [safety_decision] entry and the remaining entries. *)
Record Args : Type := {
  safety_decision : option SafetyDecision;
  entries : list (string * Js.value)
}.

Record FunctionCall : Type := {
  name : option string;
  args : option Args
}.

(** The [any]-typed result of a browser tool: the two entries the loop reads
    or writes, and the rest. *)
Record FuncResult : Type := {
  url : option string;
  error : option string;
  fields : list (string * Js.value)
}.

(** Observation parts carried inside a [functionResponse]. *)
Inductive ResponsePart : Type :=
| responseInlineData (mimeType data : string)
| responseText (text : string).

Inductive Part : Type :=
| textPart (text : string)
| inlineDataPart (mimeType data : string)
| functionCallPart (functionCall : FunctionCall)
| functionResponsePart (name : option string) (response : FuncResult)
                       (parts : list ResponsePart).

Record Content : Type := {
  role : string;
  parts : option (list Part)
}.

(** [currentPrompt: string | Part[]]. *)
Inductive Prompt : Type :=
| promptText (text : string)
| promptParts (parts : list Part).

(** *** The browser tools and the environment *)

(** The calls into [browserTools] made by the [switch] of [runTask]. *)
Inductive ToolOp : Type :=
| navigate (url : Js.value)
| clickAt (x y : Js.value)
| typeTextAt (x y text press_enter clear_before_typing : Js.value)
| scrollDocument (direction amount : Js.value)
| dragAndDrop (x y dest_x dest_y : Js.value)
| pagedown
| pageup
| keyCombination (keys : Js.value)
| openWebBrowser.

(** Everything [runTask] does to the outside world, in order.  The overlay
    calls of [browserTools], the logger and the [log] callback are recorded
    as events and taken not to throw. *)
Inductive Event : Type :=
| GetPage
| UpdateBorderOverlay (active capturing : bool)
| RemoveOverlay
| Screenshot
| AccessibilitySnapshot
| GenerateContent (contents : list Content)
| LogFullTurn
| LogSummary
| Log (message : string)
| Tool (op : ToolOp).

(** How far one state capture gets: [getPage] throws, [screenshot] throws,
    [accessibility.snapshot] throws, or all three return; the snapshot is
    given as [JSON.stringify(snapshot, null, 2)], absent when it is falsy. *)
Inductive Capture : Type :=
| PageUnavailable
| ScreenshotFailed
| SnapshotFailed (screenshot : string)
| Captured (screenshot : string) (snapshot : option string).

(** [result.candidates?.[0]?.content], or the exception of the call. *)
Inductive Generated : Type :=
| NoContent
| Candidate (content : Content)
| GenerateThrows (e : Js.thrown).

(** The answers of the collaborators, by iteration [i] and by position [j] of
    the function call within the turn. *)
Record Environment : Type := {
  firstPage : option Js.thrown;
  captureBefore : nat -> Capture;
  generateContent : nat -> list Content -> Generated;
  runTool : nat -> nat -> ToolOp -> Js.thrown + FuncResult;
  pageUrl : nat -> nat -> option string;
  captureAfter : nat -> nat -> Capture
}.

(** *** Pieces of [runTask] *)

Definition MAX_ITERATIONS : nat := 20.

Definition systemInstruction : string :=
  "You are an expert browser automation agent. Your goal is to fully complete the user's task. Do not stop until the task is completely finished. If you need to perform multiple steps, continue calling tools until the objective is met."
  ++ Js.LF ++ Js.LF ++ "Task: ".

Definition exhaustedMessage : string :=
  "The browser agent reached the maximum number of steps ("
  ++ Js.decimal MAX_ITERATIONS
  ++ ") without completing the task. Please try refining your prompt or breaking the task into smaller steps.".

Definition safetyMessage (toolName : option string) (why : string) : string :=
  "Action Required: The model requested a safety confirmation for the action "
  ++ Js.QUOTE ++ Js.interpolate toolName ++ Js.QUOTE
  ++ ". Please confirm if you want to proceed with: " ++ why.

(** The capture block (try, catch, finally): the screenshot, the DOM
    snapshot, and the calls made. *)
Definition capture (c : Capture) : string * string * list Event :=
  let opening := [RemoveOverlay; UpdateBorderOverlay true true; GetPage] in
  let closing := [UpdateBorderOverlay true false] in
  match c with
  | PageUnavailable => (EmptyString, EmptyString, opening ++ closing)%list
  | ScreenshotFailed => (EmptyString, EmptyString, opening ++ [Screenshot] ++ closing)%list
  | SnapshotFailed screenshot =>
      (screenshot, EmptyString,
       opening ++ [Screenshot; AccessibilitySnapshot] ++ closing)%list
  | Captured screenshot snapshot =>
      (screenshot,
       match snapshot with
       | Some json => Js.slice_to 1000000 json
       | None => EmptyString
       end,
       opening ++ [Screenshot; AccessibilitySnapshot] ++ closing)%list
  end.

(** [part.text]. *)
Definition text_of (p : Part) : option string :=
  match p with
  | textPart text => Some text
  | _ => None
  end.

(** [parts.filter((p) => 'functionCall' in p)], each with its call. *)
Fixpoint functionCallsOf (ps : list Part) : list FunctionCall :=
  match ps with
  | [] => []
  | functionCallPart call :: rest => call :: functionCallsOf rest
  | _ :: rest => functionCallsOf rest
  end.

(** The text handed to [log] for a model turn. *)
Definition textParts (ps : list Part) : string :=
  Js.join Js.LF
    (map (fun p => Js.nullish (text_of p) EmptyString)
         (filter (fun p => Js.truthy_opt (text_of p)) ps)).

(** [parts.map((p) => p.text).join('')]. *)
Definition finalText (ps : list Part) : string :=
  Js.join EmptyString (map (fun p => Js.nullish (text_of p) EmptyString) ps).

Definition isFunctionResponse (p : Prompt) : bool :=
  match p with
  | promptParts (functionResponsePart _ _ _ :: _) => true
  | _ => false
  end.

(** The user turn built from the pending prompt and the fresh observation. *)
Definition newContent (currentPrompt : Prompt)
           (screenshotBase64 domSnapshot : string) : Content :=
  let pending :=
    match currentPrompt with
    | promptText text => [textPart text]
    | promptParts ps => ps
    end in
  let grounding :=
    if isFunctionResponse currentPrompt then []
    else
      ((if Js.truthy domSnapshot
        then [textPart ("Current Accessibility Tree:" ++ Js.LF ++ domSnapshot)]
        else [])
       ++ (if Js.truthy screenshotBase64
           then [inlineDataPart "image/png" screenshotBase64]
           else []))%list in
  {| role := "user"; parts := Some (pending ++ grounding)%list |}.

(** [call.args!['key']]. *)
Fixpoint entry (key : string) (kvs : list (string * Js.value)) : Js.value :=
  match kvs with
  | [] => Js.Undefined
  | (k, v) :: rest => if k =? key then v else entry key rest
  end.

(** The [TypeError] of reading [key] from an absent [call.args]. *)
Definition noArgs (key : string) : Js.thrown :=
  Js.ThrownError
    ("Cannot read properties of undefined (reading '" ++ key ++ "')").

(** The [switch (call.name)]: the browser tool to call, [None] for the
    [default] branch, or the exception raised while reading the arguments. *)
Definition selectTool (call : FunctionCall) : Js.thrown + option ToolOp :=
  let reading (key : string) (build : list (string * Js.value) -> ToolOp) :=
    match args call with
    | Some a => inr (Some (build (entries a)))
    | None => inl (noArgs key)
    end in
  match name call with
  | None => inr None
  | Some n =>
      if n =? "navigate" then
        reading "url" (fun a => navigate (entry "url" a))
      else if n =? "click_at" then
        reading "x" (fun a => clickAt (entry "x" a) (entry "y" a))
      else if n =? "type_text_at" then
        reading "x" (fun a =>
          typeTextAt (entry "x" a) (entry "y" a) (entry "text" a)
                     (entry "press_enter" a) (entry "clear_before_typing" a))
      else if n =? "scroll_document" then
        reading "direction" (fun a =>
          scrollDocument (entry "direction" a) (entry "amount" a))
      else if n =? "drag_and_drop" then
        reading "x" (fun a =>
          dragAndDrop (entry "x" a) (entry "y" a)
                      (entry "dest_x" a) (entry "dest_y" a))
      else if n =? "pagedown" then inr (Some pagedown)
      else if n =? "pageup" then inr (Some pageup)
      else if n =? "key_combination" then
        reading "keys" (fun a => keyCombination (entry "keys" a))
      else if n =? "open_web_browser" then inr (Some openWebBrowser)
      else inr None
  end.

Definition errorResult (message : string) : FuncResult :=
  {| url := None; error := Some message; fields := [] |}.

(** The [try { switch ... } catch] around one tool call. *)
Definition callTool (env : Environment) (i j : nat) (call : FunctionCall)
  : FuncResult * list Event :=
  match selectTool call with
  | inl e => (errorResult (Js.describe e), [])
  | inr None =>
      (errorResult ("Unknown tool: " ++ Js.interpolate (name call)), [])
  | inr (Some op) =>
      match runTool env i j op with
      | inl e => (errorResult (Js.describe e), [Tool op])
      | inr funcResult => (funcResult, [Tool op])
      end
  end.

(** "Ensure URL is included in the response". *)
Definition ensureUrl (env : Environment) (i j : nat) (funcResult : FuncResult)
  : FuncResult * list Event :=
  if Js.truthy_opt (url funcResult) then (funcResult, [])
  else
    ({| url := Some (Js.nullish (pageUrl env i j) "about:blank");
        error := error funcResult;
        fields := fields funcResult |},
     [GetPage]).

(** The safety check on one call: the message to return, if any. *)
Definition confirmationRequired (call : FunctionCall) : option string :=
  match args call with
  | Some a =>
      match safety_decision a with
      | Some sd =>
          if decision sd =? "require_confirmation"
          then Some (safetyMessage (name call) (explanation sd))
          else None
      | None => None
      end
  | None => None
  end.

Definition responsePart (call : FunctionCall) (funcResult : FuncResult)
           (newScreenshot newDom : string) : Part :=
  functionResponsePart (name call) funcResult
    ((if Js.truthy newScreenshot
      then [responseInlineData "image/png" newScreenshot]
      else [])
     ++ (if Js.truthy newDom
         then [responseText ("current_accessibility_tree:" ++ Js.LF ++ newDom)]
         else []))%list.

(** *** The loop *)

(** What the loop owns between iterations, with the calls made so far. *)
Record LoopState : Type := {
  contents : list Content;
  currentPrompt : Prompt;
  trace : list Event
}.

(** How [runTask] ends: it returns a text, or its promise rejects. *)
Inductive Completion : Type :=
| Returned (text : string)
| Rejected (e : Js.thrown).

Record Run : Type := {
  completion : Completion;
  effects : list Event
}.

(** The outcome of the inner [for (const part of functionCalls)]. *)
Inductive Dispatch : Type :=
| SafetyHalt (message : string) (done : list Event)
| Responses (functionResponses : list Part) (done : list Event).

Fixpoint executeTools (env : Environment) (i j : nat)
         (functionCalls : list FunctionCall)
         (functionResponses : list Part) (done : list Event) : Dispatch :=
  match functionCalls with
  | [] => Responses functionResponses done
  | call :: rest =>
      match confirmationRequired call with
      | Some message => SafetyHalt message done
      | None =>
          let '(funcResult, called) := callTool env i j call in
          let '(funcResult, asked) := ensureUrl env i j funcResult in
          let '(newScreenshot, newDom, captured) :=
            capture (captureAfter env i j) in
          executeTools env i (S j) rest
            (functionResponses
             ++ [responsePart call funcResult newScreenshot newDom])%list
            (done ++ called ++ asked ++ captured)%list
      end
  end.

(** The outcome of one pass through the body of the outer [for]. *)
Inductive Step : Type :=
| Continue (next : LoopState)
| Break (last : LoopState)
| Return (result : Run).

(** The first half of an iteration: the history sent to the model and the
    calls made up to and including the model call. *)
Definition observe (env : Environment) (i : nat) (s : LoopState)
  : list Content * list Event :=
  let '(screenshotBase64, domSnapshot, captured) :=
    capture (captureBefore env i) in
  let contents1 :=
    (contents s
     ++ [newContent (currentPrompt s) screenshotBase64 domSnapshot])%list in
  (contents1, (trace s ++ captured ++ [GenerateContent contents1])%list).

(** The calls made once the model's turn is logged. *)
Definition heard (log : bool) (asked : list Event) (ps : list Part)
  : list Event :=
  (asked ++ [LogFullTurn; LogSummary]
   ++ (if log && Js.truthy (textParts ps) then [Log (textParts ps)]
       else []))%list.

(** One iteration; [log] tells whether the optional callback was given. *)
Definition iteration (env : Environment) (log : bool) (i : nat)
           (s : LoopState) : Step :=
  let '(contents1, asked) := observe env i s in
  match generateContent env i contents1 with
  | GenerateThrows e => Return {| completion := Rejected e; effects := asked |}
  | NoContent =>
      Break {| contents := contents1;
               currentPrompt := currentPrompt s;
               trace := asked |}
  | Candidate response =>
      let contents2 := (contents1 ++ [response])%list in
      let ps := Js.nullish (parts response) [] in
      let logged := heard log asked ps in
      match functionCallsOf ps with
      | [] =>
          Return {| completion := Returned (finalText ps);
                    effects := (logged ++ [RemoveOverlay])%list |}
      | functionCalls =>
          match executeTools env i 0 functionCalls [] logged with
          | SafetyHalt message done =>
              Return {| completion := Returned message; effects := done |}
          | Responses functionResponses done =>
              Continue {| contents := contents2;
                          currentPrompt := promptParts functionResponses;
                          trace := done |}
          end
      end
  end.

(** The statements after the loop. *)
Definition afterLoop (s : LoopState) : Run :=
  {| completion := Returned exhaustedMessage;
     effects :=
       (trace s ++ [RemoveOverlay; UpdateBorderOverlay false false])%list |}.

(** [for (let i = 0; i < MAX_ITERATIONS; i++)], by the iterations left. *)
Fixpoint loop (env : Environment) (log : bool) (remaining i : nat)
         (s : LoopState) : Run :=
  match remaining with
  | O => afterLoop s
  | S remaining' =>
      match iteration env log i s with
      | Continue next => loop env log remaining' (S i) next
      | Break last => afterLoop last
      | Return result => result
      end
  end.

(** [e instanceof Error && e.message.includes('Playwright is not installed')]. *)
Definition playwrightMissing (e : Js.thrown) : bool :=
  match e with
  | Js.ThrownError message => Js.includes message "Playwright is not installed"
  | Js.ThrownOther _ => false
  end.

(** The availability check before the loop: the text of the early return, or
    the calls made before the loop is entered. *)
Definition checkBrowser (env : Environment) (log : bool)
  : string + list Event :=
  match firstPage env with
  | None => inr [GetPage]
  | Some e =>
      if playwrightMissing e then inl ("Error: " ++ Js.describe e)
      else
        inr ([GetPage]
             ++ (if log
                 then [Log ("Warning: Failed to launch browser: "
                            ++ Js.describe e)]
                 else []))%list
  end.

(** The state in which the loop is entered. *)
Definition initialState (prompt : string) (before : list Event) : LoopState :=
  {| contents := [];
     currentPrompt := promptText (systemInstruction ++ prompt);
     trace := (before ++ [UpdateBorderOverlay true false])%list |}.

Definition runTask (env : Environment) (log : bool) (prompt : string) : Run :=
  match checkBrowser env log with
  | inl text => {| completion := Returned text; effects := [GetPage] |}
  | inr before => loop env log MAX_ITERATIONS 0 (initialState prompt before)
  end.

(** *** Reading a run *)

(** The number of model calls in a list of events. *)
Fixpoint modelCalls (events : list Event) : nat :=
  match events with
  | [] => 0
  | GenerateContent _ :: rest => S (modelCalls rest)
  | _ :: rest => modelCalls rest
  end.

(** The browser tool calls in a list of events. *)
Fixpoint toolCalls (events : list Event) : list ToolOp :=
  match events with
  | [] => []
  | Tool op :: rest => op :: toolCalls rest
  | _ :: rest => toolCalls rest
  end.

(** Whether the border overlay is left active: the [active] flag of the last
    [updateBorderOverlay], starting from an inactive border. *)
Fixpoint borderActiveFrom (active : bool) (events : list Event) : bool :=
  match events with
  | [] => active
  | UpdateBorderOverlay a _ :: rest => borderActiveFrom a rest
  | _ :: rest => borderActiveFrom active rest
  end.

Definition borderActive (events : list Event) : bool :=
  borderActiveFrom false events.

(** The browser tool, if any, that the [switch] calls for a function call. *)
Definition selected (call : FunctionCall) : list ToolOp :=
  match selectTool call with
  | inr (Some op) => [op]
  | _ => []
  end.

(** The function calls of a model turn. *)
Definition callsOf (response : Content) : list FunctionCall :=
  functionCallsOf (Js.nullish (parts response) []).

(** [reaches env log prompt i s]: [runTask env log prompt] starts iteration
    [i] of its loop in state [s]. *)
Inductive reaches (env : Environment) (log : bool) (prompt : string)
  : nat -> LoopState -> Prop :=
| reaches_first (before : list Event) :
    checkBrowser env log = inr before ->
    reaches env log prompt 0 (initialState prompt before)
| reaches_next (i : nat) (s next : LoopState) :
    reaches env log prompt i s ->
    S i < MAX_ITERATIONS ->
    iteration env log i s = Continue next ->
    reaches env log prompt (S i) next.

(** The overlay affordances are released when the run ends with
    [removeOverlay()] and a deactivating [updateBorderOverlay]. *)
Definition released (events : list Event) : Prop :=
  exists before capturing,
    events
    = (before ++ [RemoveOverlay; UpdateBorderOverlay false capturing])%list.

End BrowserAgent.

(** ** More of JavaScript's strings

    Strings are read as sequences of ASCII code units: the white space and
    the letters beyond ASCII are outside these models. *)

Module JsText.

(** The ASCII members of WhiteSpace and LineTerminator: tab, line feed,
    vertical tab, form feed, carriage return and space. *)
Definition isWhiteSpace (c : ascii) : bool :=
  let n := nat_of_ascii c in
  (Nat.leb 9 n && Nat.leb n 13) || Nat.eqb n 32.

(** [s.trimStart()]. *)
Fixpoint trimStart (s : string) : string :=
  match s with
  | EmptyString => EmptyString
  | String c rest => if isWhiteSpace c then trimStart rest else s
  end.

(** [s.trimEnd()]. *)
Fixpoint trimEnd (s : string) : string :=
  match s with
  | EmptyString => EmptyString
  | String c rest =>
      match trimEnd rest with
      | EmptyString =>
          if isWhiteSpace c then EmptyString else String c EmptyString
      | kept => String c kept
      end
  end.

(** [s.trim()]. *)
Definition trim (s : string) : string := trimEnd (trimStart s).


End JsText.

(** ** exit-plan-mode.ts: the tool *)

Module ExitPlanModeTool.
Import ExitPlanMode.

Section WithPaths.
Context {paths : PathApi}.

(** [ExitPlanModeTool.validateToolParamValues]: the error text, or [None]
    for the [null] of valid parameters. *)
Definition validateToolParamValues (config : Config)
           (params : ExitPlanModeParams) : option string :=
  if negb (Js.truthy (plan_path params))
     || (JsText.trim (plan_path params) =? EmptyString)
  then Some "plan_path is required."
  else
    let resolvedPath :=
      path_resolve (getTargetDir config) (plan_path params) in
    let plansDir := getProjectTempPlansDir config in
    if negb (isWithinRoot resolvedPath plansDir) then
      Some ("Access denied: plan path must be within the designated plans directory ("
            ++ plansDir ++ ").")
    else None.

(** [ExitPlanModeInvocation.getDescription]. *)
Definition getDescription (this : ExitPlanModeInvocation) : string :=
  "Requesting plan approval for: " ++ plan_path (params this).

End WithPaths.

End ExitPlanModeTool.

(** ** browserAgent.ts: more ways to read a run *)

Module AgentReading.
Import BrowserAgent.

(** The messages handed to the [log] callback. *)
Fixpoint logs (events : list Event) : list string :=
  match events with
  | [] => []
  | Log message :: rest => message :: logs rest
  | _ :: rest => logs rest
  end.

(** Events that are neither a model call nor a message for [log]. *)
Definition quiet (e : Event) : bool :=
  match e with
  | GenerateContent _ | Log _ => false
  | _ => true
  end.

(** The texts of the text parts, in order. *)
Fixpoint texts (ps : list Part) : list string :=
  match ps with
  | [] => []
  | textPart text :: rest => text :: texts rest
  | _ :: rest => texts rest
  end.

(** The names with a [case] in the [switch] of [runTask]. *)
Definition knownTools : list string :=
  ["navigate"; "click_at"; "type_text_at"; "scroll_document";
   "drag_and_drop"; "pagedown"; "pageup"; "key_combination";
   "open_web_browser"].

(** A function response named after a call and carrying a URL. *)
Definition answers (call : FunctionCall) (p : Part) : Prop :=
  exists response observation,
    p = functionResponsePart (name call) response observation
    /\ url response <> None.

(** A loop state, a run and a step with [before] put in front of the calls
    recorded so far. *)
Definition after (before : list Event) (s : LoopState) : LoopState :=
  {| contents := contents s;
     currentPrompt := currentPrompt s;
     trace := (before ++ trace s)%list |}.

Definition runAfter (before : list Event) (r : Run) : Run :=
  {| completion := completion r;
     effects := (before ++ effects r)%list |}.

Definition stepAfter (before : list Event) (st : Step) : Step :=
  match st with
  | Continue next => Continue (after before next)
  | Break last => Break (after before last)
  | Return result => Return (runAfter before result)
  end.

Definition dispatchAfter (before : list Event) (d : Dispatch) : Dispatch :=
  match d with
  | SafetyHalt message done => SafetyHalt message (before ++ done)%list
  | Responses functionResponses done =>
      Responses functionResponses (before ++ done)%list
  end.

End AgentReading.

(** ** browserManager.ts *)

Module BrowserManager.

(** Playwright's objects, by identity. *)
Definition Browser : Type := nat.
Definition BrowserContext : Type := nat.
Definition Page : Type := nat.

(** The fields of [BrowserManager]. *)
Record Manager : Type := {
  browser : option Browser;
  context : option BrowserContext;
  page : option Page
}.

(** [new BrowserManager()]. *)
Definition fresh : Manager :=
  {| browser := None; context := None; page := None |}.

(** What Playwright answers during one call of [getPage] or [close].
    [newPage] is asked at most twice in a call, once when the browser is
    launched and once when a page is reopened; its first argument counts the
    earlier requests of the call. *)
Record Playwright : Type := {
  importPlaywright : bool;
  launch : Js.thrown + Browser;
  newContext : Browser -> Js.thrown + BrowserContext;
  newPage : nat -> BrowserContext -> Js.thrown + Page;
  isConnected : Browser -> bool;
  isClosed : Page -> bool;
  closeBrowser : Browser -> option Js.thrown
}.

(** The requests made to Playwright, in order. *)
Inductive Request : Type :=
| AskConnected (b : Browser)
| Import
| Launch
| NewContext (b : Browser)
| NewPage (c : BrowserContext)
| OnClose (p : Page)
| OnDisconnected (b : Browser)
| AskClosed (p : Page)
| Close (b : Browser).

(** An asynchronous method of the manager: from the fields before, the value
    it resolves to or the error it rejects with, the fields after, and the
    requests made. *)
Definition Action (A : Type) : Type :=
  Manager -> (Js.thrown + A) * Manager * list Request.

Definition ret {A : Type} (a : A) : Action A :=
  fun this => (inr a, this, []).

Definition throw {A : Type} (e : Js.thrown) : Action A :=
  fun this => (inl e, this, []).

Definition bind {A B : Type} (m : Action A) (k : A -> Action B) : Action B :=
  fun this =>
    match m this with
    | (inl e, this', made) => (inl e, this', made)
    | (inr a, this', made) =>
        let '(r, this'', more) := k a this' in (r, this'', (made ++ more)%list)
    end.

Declare Scope action_scope.
Delimit Scope action_scope with action.
Notation "x <- m ;; k" := (bind m (fun x => k))
  (at level 61, m at next level, right associativity) : action_scope.
Notation "m ;; k" := (bind m (fun _ => k))
  (at level 61, right associativity) : action_scope.
Local Open Scope action_scope.

(** Reading and writing the fields. *)
Definition this_ : Action Manager := fun this => (inr this, this, []).

Definition setBrowser (b : option Browser) : Action unit :=
  fun this =>
    (inr tt, {| browser := b; context := context this; page := page this |}, []).

Definition setContext (c : option BrowserContext) : Action unit :=
  fun this =>
    (inr tt, {| browser := browser this; context := c; page := page this |}, []).

Definition setPage (p : option Page) : Action unit :=
  fun this =>
    (inr tt, {| browser := browser this; context := context this; page := p |},
     []).

(** A request that cannot fail, and one that resolves or rejects. *)
Definition ask {A : Type} (r : Request) (answer : A) : Action A :=
  fun this => (inr answer, this, [r]).

Definition await {A : Type} (r : Request) (answer : Js.thrown + A) : Action A :=
  fun this => (answer, this, [r]).

(** The error of [getPage] when Playwright cannot be imported. *)
Definition notInstalled : Js.thrown :=
  Js.ThrownError
    "Playwright is not installed. Please install it to use the browser agent: npm install playwright".

Definition failedToCreatePage : Js.thrown :=
  Js.ThrownError "Failed to create page".

(** [!this.browser || !this.browser.isConnected()]. *)
Definition browserGone (w : Playwright) : Action bool :=
  this <- this_ ;;
  match browser this with
  | None => ret true
  | Some b => connected <- ask (AskConnected b) (isConnected w b) ;;
              ret (negb connected)
  end.

(** [!this.page || this.page.isClosed()]. *)
Definition pageGone (w : Playwright) : Action bool :=
  this <- this_ ;;
  match page this with
  | None => ret true
  | Some p => ask (AskClosed p) (isClosed w p)
  end.

(** The body of the first [if] of [getPage]; it resolves to the number of
    pages it asked for. *)
Definition launchBrowser (w : Playwright) : Action nat :=
  imported <- ask Import (importPlaywright w) ;;
  (if imported : bool then ret tt else throw notInstalled) ;;
  b <- await Launch (launch w) ;;
  setBrowser (Some b) ;;
  c <- await (NewContext b) (newContext w b) ;;
  setContext (Some c) ;;
  p <- await (NewPage c) (newPage w 0 c) ;;
  setPage (Some p) ;;
  ask (OnClose p) tt ;;
  ask (OnDisconnected b) tt ;;
  ret 1.

(** The body of the second [if] of [getPage]. *)
Definition reopenPage (w : Playwright) (asked : nat) : Action unit :=
  this <- this_ ;;
  match context this with
  | None =>
      match browser this with
      | Some b =>
          c <- await (NewContext b) (newContext w b) ;;
          setContext (Some c)
      | None => ret tt
      end
  | Some _ => ret tt
  end ;;
  this <- this_ ;;
  match context this with
  | Some c =>
      p <- await (NewPage c) (newPage w asked c) ;;
      setPage (Some p)
  | None => ret tt
  end.

Definition getPage (w : Playwright) : Action Page :=
  gone <- browserGone w ;;
  asked <- (if gone : bool then launchBrowser w else ret 0) ;;
  closed <- pageGone w ;;
  (if closed : bool then reopenPage w asked else ret tt) ;;
  this <- this_ ;;
  match page this with
  | None => throw failedToCreatePage
  | Some p => ret p
  end.

(** [close]. *)
Definition close (w : Playwright) : Action unit :=
  this <- this_ ;;
  match browser this with
  | Some b =>
      match closeBrowser w b with
      | Some e => await (Close b) (inl e)
      | None => ask (Close b) tt
      end
  | None => ret tt
  end ;;
  setBrowser None ;;
  setContext None ;;
  setPage None.

(** The handler of the page's [close] event. *)
Definition onPageClose (this : Manager) : Manager :=
  {| browser := browser this; context := context this; page := None |}.

(** The handler of the browser's [disconnected] event. *)
Definition onDisconnected (this : Manager) : Manager :=
  {| browser := None; context := None; page := None |}.

(** Reading the outcome of an action. *)
Definition outcome {A : Type} (r : (Js.thrown + A) * Manager * list Request)
  : Js.thrown + A := fst (fst r).

Definition fields {A : Type} (r : (Js.thrown + A) * Manager * list Request)
  : Manager := snd (fst r).

Definition requests {A : Type} (r : (Js.thrown + A) * Manager * list Request)
  : list Request := snd r.

End BrowserManager.

(** What [runTask] sees of a [getPage] that it awaits in a [try]: the thrown
    value, if any. *)
Module BrowserCheck.

Definition caught (r : Js.thrown + BrowserManager.Page) : option Js.thrown :=
  match r with
  | inl e => Some e
  | inr _ => None
  end.

(** A Playwright that launches browser [b] with context [c] and page [p]. *)
Definition working (b c p : nat) : BrowserManager.Playwright :=
  {| BrowserManager.importPlaywright := true;
     BrowserManager.launch := inr b;
     BrowserManager.newContext := fun _ => inr c;
     BrowserManager.newPage := fun _ _ => inr p;
     BrowserManager.isConnected := fun _ => true;
     BrowserManager.isClosed := fun _ => false;
     BrowserManager.closeBrowser := fun _ => None |}.

(** A machine without Playwright, seen from a manager that lost its
    browser. *)
Definition bare : BrowserManager.Playwright :=
  {| BrowserManager.importPlaywright := false;
     BrowserManager.launch := inl (Js.ThrownOther "unreachable");
     BrowserManager.newContext := fun _ => inl (Js.ThrownOther "unreachable");
     BrowserManager.newPage := fun _ _ => inl (Js.ThrownOther "unreachable");
     BrowserManager.isConnected := fun _ => false;
     BrowserManager.isClosed := fun _ => true;
     BrowserManager.closeBrowser := fun _ => None |}.

End BrowserCheck.

(** ** projectRegistry.ts *)

Module ProjectRegistry.

(** *** [slugify] *)

Definition dash : ascii := ascii_of_nat 45.

Definition isDash (c : ascii) : bool := Ascii.eqb c dash.

(** [a-z0-9]. *)
Definition isSlugChar (c : ascii) : bool :=
  let n := nat_of_ascii c in
  (Nat.leb 97 n && Nat.leb n 122) || (Nat.leb 48 n && Nat.leb n 57).

(** [toLowerCase] on one ASCII code unit. *)
Definition lower (c : ascii) : ascii :=
  let n := nat_of_ascii c in
  if Nat.leb 65 n && Nat.leb n 90 then ascii_of_nat (n + 32) else c.

(** [s.toLowerCase()]. *)
Fixpoint toLowerCase (s : string) : string :=
  match s with
  | EmptyString => EmptyString
  | String c rest => String (lower c) (toLowerCase rest)
  end.

(** [.replace(/[^a-z0-9]/g, '-')]. *)
Fixpoint dashOthers (s : string) : string :=
  match s with
  | EmptyString => EmptyString
  | String c rest =>
      String (if isSlugChar c then c else dash) (dashOthers rest)
  end.

(** [.replace(/-+/g, '-')]. *)
Fixpoint collapse (s : string) : string :=
  match s with
  | EmptyString => EmptyString
  | String c rest =>
      if isDash c then
        match rest with
        | String d _ => if isDash d then collapse rest else String c (collapse rest)
        | EmptyString => String c EmptyString
        end
      else String c (collapse rest)
  end.

(** The [^-] half of [.replace(/^-|-$/g, '')]. *)
Definition dropStart (s : string) : string :=
  match s with
  | String c rest => if isDash c then rest else s
  | EmptyString => EmptyString
  end.

(** The [-$] half of [.replace(/^-|-$/g, '')]. *)
Fixpoint dropEnd (s : string) : string :=
  match s with
  | EmptyString => EmptyString
  | String c EmptyString => if isDash c then EmptyString else s
  | String c rest => String c (dropEnd rest)
  end.

Definition slugify (text : string) : string :=
  let slug := dropEnd (dropStart (collapse (dashOthers (toLowerCase text)))) in
  if Js.truthy slug then slug else "project".

(** *** The registry *)

(** [Record<string, string>]: the entries in insertion order. *)
Definition Projects : Type := list (string * string).

(** [projects[key]]. *)
Fixpoint get (key : string) (projects : Projects) : option string :=
  match projects with
  | [] => None
  | (k, v) :: rest => if k =? key then Some v else get key rest
  end.

(** [projects[key] = value]. *)
Fixpoint set (key value : string) (projects : Projects) : Projects :=
  match projects with
  | [] => [(key, value)]
  | (k, v) :: rest =>
      if k =? key then (k, value) :: rest else (k, v) :: set key value rest
  end.

(** [Object.values(projects)]. *)
Definition values (projects : Projects) : list string := map snd projects.

(** [existingIds.has(candidate)]. *)
Definition has (ids : list string) (candidate : string) : bool :=
  existsb (String.eqb candidate) ids.

(** The [while] loop of [generateUniqueShortId], run for at most [fuel]
    rounds; [None] when the rounds run out. *)
Fixpoint firstFree (fuel : nat) (ids : list string) (slug candidate : string)
         (counter : nat) : option string :=
  if has ids candidate then
    match fuel with
    | O => None
    | S fuel' =>
        firstFree fuel' ids slug (slug ++ "-" ++ Js.decimal counter) (S counter)
    end
  else Some candidate.

(** The registry file as [load] finds it: absent; unreadable or not JSON;
    holding registry data; or holding JSON without a [projects] object, the
    reading of which throws. *)
Inductive File : Type :=
| Missing
| Unreadable
| Holding (projects : Projects)
| Shapeless (e : Js.thrown).

(** How [save] fares: the file is replaced; writing fails and is only
    logged; or creating the directory throws. *)
Inductive Write : Type :=
| Written
| WriteFails
| MkdirThrows (e : Js.thrown).

Section WithPlatform.
Context {paths : PathApi}.

(** [path.basename] and [os.platform() === 'win32']. *)
Variable basename : string -> string.
Variable win32 : bool.

(** [path.resolve(projectPath)]: Node ignores empty segments. *)
Definition normalizePath (projectPath : string) : string :=
  let resolved := path_resolve EmptyString projectPath in
  if win32 then toLowerCase resolved else resolved.

Definition generateUniqueShortId (projectPath : string) (existing : Projects)
  : option string :=
  let baseName := Js.or_else (Some (basename projectPath)) "project" in
  let slug := slugify baseName in
  let existingIds := values existing in
  firstFree (length existingIds) existingIds slug slug 1.

(** [load], for a file that holds registry data or none. *)
Definition load (file : File) : Projects :=
  match file with
  | Holding projects => projects
  | _ => []
  end.

(** [save]: the exception that escapes, if any, and the file afterwards. *)
Definition save (write : Write) (projects : Projects) (file : File)
  : option Js.thrown * File :=
  match write with
  | Written => (None, Holding projects)
  | WriteFails => (None, file)
  | MkdirThrows e => (Some e, file)
  end.

(** [getShortId]: the identifier or the exception, and the file afterwards;
    [None] when the loop of [generateUniqueShortId] does not end. *)
Definition getShortId (write : Write) (file : File) (projectPath : string)
  : option ((Js.thrown + string) * File) :=
  match file with
  | Shapeless e => Some (inl e, file)
  | _ =>
      let projects := load file in
      let normalizedPath := normalizePath projectPath in
      if Js.truthy_opt (get normalizedPath projects) then
        Some (inr (Js.nullish (get normalizedPath projects) EmptyString), file)
      else
        match generateUniqueShortId normalizedPath projects with
        | None => None
        | Some shortId =>
            match save write (set normalizedPath shortId projects) file with
            | (Some e, file') => Some (inl e, file')
            | (None, file') => Some (inr shortId, file')
            end
        end
  end.

End WithPlatform.

(** *** Vocabulary of the properties *)

(** Only [a-z0-9-], and every dash followed by a character that is none. *)
Fixpoint dashesInside (s : string) : bool :=
  match s with
  | EmptyString => true
  | String c rest =>
      (isSlugChar c || isDash c)
      && (if isDash c
          then match rest with
               | String d _ => negb (isDash d)
               | EmptyString => false
               end
          else true)
      && dashesInside rest
  end.

(** The shape of a slug: not empty, made of [a-z0-9-], not starting and not
    ending with a dash, without two dashes in a row. *)
Definition slugShaped (s : string) : bool :=
  match s with
  | EmptyString => false
  | String c _ => negb (isDash c) && dashesInside s
  end.

(** Only [a-z0-9-]. *)
Fixpoint slugLetters (s : string) : bool :=
  match s with
  | EmptyString => true
  | String c rest => (isSlugChar c || isDash c) && slugLetters rest
  end.

(** Only [a-z0-9-], and no two dashes in a row. *)
Fixpoint dashesApart (s : string) : bool :=
  match s with
  | EmptyString => true
  | String c rest =>
      (isSlugChar c || isDash c)
      && (if isDash c
          then match rest with
               | String d _ => negb (isDash d)
               | EmptyString => true
               end
          else true)
      && dashesApart rest
  end.

Definition startsDash (s : string) : bool :=
  match s with
  | String c _ => isDash c
  | EmptyString => false
  end.

(** The candidate that the loop of [generateUniqueShortId] builds from the
    counter [j]. *)
Definition numbered (slug : string) (j : nat) : string :=
  slug ++ "-" ++ Js.decimal j.

(** A POSIX reading of [path.basename]: the last segment that is not
    empty. *)
Definition posixBasename (p : string) : string :=
  last (filter Js.truthy (Posix.split p)) EmptyString.

End ProjectRegistry.

(** * Scenarios *)

(** The setting of [exit-plan-mode.test.ts]: target directory [/mock/dir],
    plans directory [/mock/dir/plans], plan path [plans/test-plan.md]. *)
Module PlanScenarios.
Import ExitPlanMode.

Definition mockConfig : Config :=
  {| getTargetDir := "/mock/dir";
     getProjectTempPlansDir := "/mock/dir/plans";
     getApprovalMode := OTHER_MODE "plan";
     setApprovalModeCalls := [] |}.

Definition testPlan : ExitPlanModeInvocation :=
  createInvocation {| plan_path := "plans/test-plan.md" |}.

(** The configuration after the plans directory was moved elsewhere, as in
    the test "should return error for invalid plan path". *)
Definition movedConfig : Config :=
  {| getTargetDir := "/mock/dir";
     getProjectTempPlansDir := "/completely/different/path";
     getApprovalMode := OTHER_MODE "plan";
     setApprovalModeCalls := [] |}.

Definition approving : PlanApprovalConfirmationPayload :=
  {| approved := true; approvalMode := Some DEFAULT; feedback := None |}.

Definition rejecting (f : option string) : PlanApprovalConfirmationPayload :=
  {| approved := false; approvalMode := None; feedback := f |}.

End PlanScenarios.

Module Scenarios.
Import BrowserAgent.

(** An environment whose browser is available from the start. *)
Definition browserUp (base : Environment) : Environment :=
  {| firstPage := None;
     captureBefore := captureBefore base;
     generateContent := generateContent base;
     runTool := runTool base;
     pageUrl := pageUrl base;
     captureAfter := captureAfter base |}.

(** An environment whose model gives the same answer at every call. *)
Definition modelAlways (answer : Generated) (base : Environment)
  : Environment :=
  {| firstPage := firstPage base;
     captureBefore := captureBefore base;
     generateContent := fun _ _ => answer;
     runTool := runTool base;
     pageUrl := pageUrl base;
     captureAfter := captureAfter base |}.

(** A model turn. *)
Definition turn (ps : list Part) : Generated :=
  Candidate {| role := "model"; parts := Some ps |}.

(** A function call without arguments. *)
Definition plainCall (toolName : string) : FunctionCall :=
  {| name := Some toolName; args := None |}.

(** A function call whose arguments ask for confirmation. *)
Definition guardedCall (toolName why : string) : FunctionCall :=
  {| name := Some toolName;
     args :=
       Some {| safety_decision :=
                 Some {| decision := "require_confirmation";
                         explanation := why |};
               entries := [] |} |}.

(** A browser that cannot be reached and tools that return nothing. *)
Definition offline : Environment :=
  {| firstPage := None;
     captureBefore := fun _ => PageUnavailable;
     generateContent := fun _ _ => NoContent;
     runTool := fun _ _ _ => inr {| url := None; error := None; fields := [] |};
     pageUrl := fun _ _ => None;
     captureAfter := fun _ _ => PageUnavailable |}.

(** The model pages down, then asks to click with a safety decision, then
    asks to navigate. *)
Definition guardedTurn : Content :=
  {| role := "model";
     parts :=
       Some [functionCallPart (plainCall "pagedown");
             functionCallPart (guardedCall "click_at" "the button submits a payment");
             functionCallPart (plainCall "open_web_browser")] |}.

End Scenarios.

(** More settings for runs of the agent. *)
Module MoreScenarios.
Import BrowserAgent.

(** The error that [browserManager.getPage] throws when Playwright cannot be
    imported. *)
Definition playwrightError : Js.thrown :=
  Js.ThrownError
    "Playwright is not installed. Please install it to use the browser agent: npm install playwright".

(** An environment whose browser check fails with [e]. *)
Definition browserDown (e : Js.thrown) (base : Environment) : Environment :=
  {| firstPage := Some e;
     captureBefore := captureBefore base;
     generateContent := generateContent base;
     runTool := runTool base;
     pageUrl := pageUrl base;
     captureAfter := captureAfter base |}.

(** An environment whose browser tools all throw [e]. *)
Definition toolsThrow (e : Js.thrown) (base : Environment) : Environment :=
  {| firstPage := firstPage base;
     captureBefore := captureBefore base;
     generateContent := generateContent base;
     runTool := fun _ _ _ => inl e;
     pageUrl := pageUrl base;
     captureAfter := captureAfter base |}.

(** A turn of text around an image. *)
Definition mixedTurn : Content :=
  {| role := "model";
     parts := Some [textPart "All ";
                    inlineDataPart "image/png" "AAAA";
                    textPart "done."] |}.

(** A model that asks to page down at every turn. *)
Definition scrolling : Environment :=
  Scenarios.modelAlways
    (Scenarios.turn [functionCallPart (Scenarios.plainCall "pagedown")])
    Scenarios.offline.

End MoreScenarios.

(** * Properties *)

(** ** Strings *)

Module StringFacts.

Lemma startsWith_append (a b : string) : Js.startsWith (a ++ b) a = true.
Proof.
  induction a as [|c a IH]; simpl.
  - reflexivity.
  - now rewrite Ascii.eqb_refl.
Qed.

Lemma append_assoc (a b c : string) : (a ++ b) ++ c = a ++ (b ++ c).
Proof.
  induction a as [|x a IH]; simpl; [reflexivity | now rewrite IH].
Qed.

Lemma includes_of_prefix (hay needle : string) :
  Js.startsWith hay needle = true -> Js.includes hay needle = true.
Proof.
  intros Hp. destruct hay; simpl; rewrite Hp; reflexivity.
Qed.

Lemma includes_append_right (a hay needle : string) :
  Js.includes hay needle = true -> Js.includes (a ++ hay) needle = true.
Proof.
  intros Hin. induction a as [|c a IH]; simpl.
  - exact Hin.
  - rewrite IH. apply orb_true_r.
Qed.

Lemma truthy_nonempty (s : string) : s <> EmptyString -> Js.truthy s = true.
Proof.
  destruct s; [intros ne; now elim ne | reflexivity].
Qed.

End StringFacts.

(** ** The POSIX instance of the path functions *)

Lemma posix_resolve_nonempty (cwd from to : string) :
  Posix.resolve cwd from to <> EmptyString.
Proof.
  unfold Posix.resolve.
  destruct (Posix.scan [to; from; cwd] EmptyString) as [joined absolute].
  destruct absolute.
  - simpl. discriminate.
  - destruct (Js.join "/" _) as [|c body]; simpl; discriminate.
Qed.

#[export] Instance posix (cwd : string) : PathApi := {|
  path_resolve := Posix.resolve cwd;
  isWithinRoot := Posix.within;
  path_resolve_nonempty := posix_resolve_nonempty cwd
|}.

(** ** Plan approval *)

Module PlanApproval.
Import ExitPlanMode PlanScenarios.

Section WithPaths.
Context {paths : PathApi}.

(** With a plan path inside the plans directory, [execute] gets past its
    first test with the resolved path in hand. *)
Lemma validated_inside (config : Config) (this : ExitPlanModeInvocation) :
  withinPlansDir config this = true ->
  getValidatedPlanPath config this = Some (resolvedPath config this)
  /\ Js.truthy (resolvedPath config this) = true.
Proof.
  unfold withinPlansDir, getValidatedPlanPath, resolvedPath.
  intros ->. split; [reflexivity|].
  apply StringFacts.truthy_nonempty, path_resolve_nonempty.
Qed.

Lemma validated_outside (config : Config) (this : ExitPlanModeInvocation) :
  withinPlansDir config this = false ->
  getValidatedPlanPath config this = None.
Proof.
  unfold withinPlansDir, getValidatedPlanPath, resolvedPath.
  now intros ->.
Qed.

(** [execute], branch by branch, for a plan inside the plans directory. *)
Lemma execute_inside (config : Config) (this : ExitPlanModeInvocation) :
  withinPlansDir config this = true ->
  execute config this
  = if isCancel (confirmationOutcome this) then (cancelled, config)
    else match approvalPayload this with
         | Some p =>
             if approved p then
               let newMode := Js.nullish (approvalMode p) DEFAULT in
               (planApproved (getApprovalModeDescription newMode)
                             (resolvedPath config this),
                setApprovalMode newMode config)
             else
               (planRejected (Js.or_else (feedback p) "None")
                             (resolvedPath config this), config)
         | None => (planRejected "None" (resolvedPath config this), config)
         end.
Proof.
  intros Hin. destruct (validated_inside config this Hin) as [Hv Ht].
  unfold execute. rewrite Hv. simpl. rewrite Ht. simpl.
  destruct (isCancel (confirmationOutcome this)); [reflexivity|].
  destruct (approvalPayload this) as [p|]; [|reflexivity].
  destruct (approved p); reflexivity.
Qed.

Lemma execute_outside (config : Config) (this : ExitPlanModeInvocation) :
  withinPlansDir config this = false ->
  execute config this = (outsidePlansDir, config).
Proof.
  intros Hout. unfold execute. now rewrite (validated_outside _ _ Hout).
Qed.

(** The confirmation step opens no dialog exactly when [execute] would
    report the sandbox violation. *)
Lemma shouldConfirmExecute_none_iff
      (config : Config) (this : ExitPlanModeInvocation) :
  shouldConfirmExecute config this = None
  <-> withinPlansDir config this = false.
Proof.
  unfold shouldConfirmExecute. split.
  - destruct (withinPlansDir config this) eqn:Hin; [|reflexivity].
    destruct (validated_inside config this Hin) as [-> Ht].
    cbn. now rewrite Ht.
  - intros Hout. now rewrite (validated_outside config this Hout).
Qed.

(** [onConfirm] does not touch the parameters, hence not the validation. *)
Lemma withinPlansDir_onConfirm (config : Config) (this : ExitPlanModeInvocation)
      (outcome : ToolConfirmationOutcome)
      (payload : option ToolConfirmationPayload) :
  withinPlansDir config (onConfirm outcome payload this)
  = withinPlansDir config this.
Proof. reflexivity. Qed.

Lemma not_cancel (outcome : ToolConfirmationOutcome) :
  outcome <> Cancel -> isCancel (Some outcome) = false.
Proof.
  destruct outcome; intros ne; try reflexivity. now elim ne.
Qed.

(** After a confirmation that was not cancelled and that carried a plan
    approval payload, [execute] depends on the payload alone. *)
Lemma execute_confirmed (config : Config) (this : ExitPlanModeInvocation)
      (outcome : ToolConfirmationOutcome)
      (p : PlanApprovalConfirmationPayload) :
  withinPlansDir config this = true ->
  outcome <> Cancel ->
  execute config (onConfirm outcome (Some (plan_approval p)) this)
  = if approved p then
      let newMode := Js.nullish (approvalMode p) DEFAULT in
      (planApproved (getApprovalModeDescription newMode)
                    (resolvedPath config this),
       setApprovalMode newMode config)
    else
      (planRejected (Js.or_else (feedback p) "None")
                    (resolvedPath config this), config).
Proof.
  intros Hin Hgo.
  rewrite execute_inside by exact Hin.
  cbn [onConfirm confirmationOutcome approvalPayload].
  now rewrite (not_cancel outcome Hgo).
Qed.

(** C2. For every plan path, [execute] returns the sandbox-violation error
    exactly when the path, resolved against the target directory, is not
    within the plans directory.  This holds in whatever state the invocation
    is, in particular whether or not a confirmation was ever requested or
    resolved; and on an invalid path the configuration is left as it was, so
    [setApprovalMode] is not called. *)
Theorem execute_sandbox_violation_iff
        (config : Config) (this : ExitPlanModeInvocation) :
  let violation :=
    {| llmContent :=
         "Error: Plan path is outside the designated plans directory.";
       returnDisplay :=
         "Error: Plan path is outside the designated plans directory." |} in
  (fst (execute config this) = violation
   <-> withinPlansDir config this = false)
  /\ (forall outcome payload,
         fst (execute config (onConfirm outcome payload this)) = violation
         <-> withinPlansDir config this = false)
  /\ (withinPlansDir config this = false ->
      execute config this = (violation, config)).
Proof.
  intros violation.
  assert (Hiff : forall that,
             fst (execute config that) = violation
             <-> withinPlansDir config that = false).
  { intros that. split.
    - destruct (withinPlansDir config that) eqn:Hin; [|reflexivity].
      rewrite (execute_inside config that Hin).
      destruct (isCancel (confirmationOutcome that)).
      + intros H. discriminate H.
      + destruct (approvalPayload that) as [p|].
        * destruct (approved p); intros H; discriminate H.
        * intros H. discriminate H.
    - intros Hout. now rewrite (execute_outside config that Hout). }
  split; [apply Hiff|]. split.
  - intros outcome payload.
    rewrite <- (withinPlansDir_onConfirm config this outcome payload).
    apply Hiff.
  - apply execute_outside.
Qed.

(** C5. For a plan path inside the plans directory, once the confirmation is
    resolved (not cancelled) with a plan approval payload whose [approved] is
    true, [execute] calls [setApprovalMode] with the payload's mode, DEFAULT
    when the payload has none; and for the DEFAULT mode its [llmContent] is
    the approval text, which begins "Plan approved. Switching to Default
    mode", holds the resolved plan path and tells the agent to follow the
    plan. *)
Theorem approved_plan_switches_mode
        (config : Config) (this : ExitPlanModeInvocation)
        (outcome : ToolConfirmationOutcome)
        (p : PlanApprovalConfirmationPayload) :
  withinPlansDir config this = true ->
  outcome <> Cancel ->
  approved p = true ->
  let newMode := Js.nullish (approvalMode p) DEFAULT in
  let r := execute config (onConfirm outcome (Some (plan_approval p)) this) in
  getApprovalMode (snd r) = newMode
  /\ setApprovalModeCalls (snd r) = newMode :: setApprovalModeCalls config
  /\ (newMode = DEFAULT ->
      llmContent (fst r)
      = "Plan approved. Switching to Default mode (edits will require confirmation)."
        ++ Js.LF ++ Js.LF
        ++ "The approved implementation plan is stored at: "
        ++ resolvedPath config this ++ Js.LF
        ++ "Read and follow the plan strictly during implementation.")
  /\ (newMode = DEFAULT ->
      Js.startsWith (llmContent (fst r))
                    "Plan approved. Switching to Default mode" = true)
  /\ Js.includes (llmContent (fst r)) (resolvedPath config this) = true
  /\ Js.includes (llmContent (fst r))
       "Read and follow the plan strictly during implementation." = true
  /\ returnDisplay (fst r) = "Plan approved: " ++ resolvedPath config this.
Proof.
  intros Hin Hgo Hyes newMode r.
  assert (Hr : r = (planApproved (getApprovalModeDescription newMode)
                                 (resolvedPath config this),
                    setApprovalMode newMode config)).
  { unfold r. rewrite (execute_confirmed config this outcome p Hin Hgo).
    now rewrite Hyes. }
  rewrite Hr. cbn [fst snd setApprovalMode getApprovalMode
                   setApprovalModeCalls planApproved llmContent returnDisplay].
  repeat split.
  - intros ->. reflexivity.
  - intros ->. reflexivity.
  - do 6 apply StringFacts.includes_append_right.
    apply StringFacts.includes_of_prefix, StringFacts.startsWith_append.
  - do 8 apply StringFacts.includes_append_right. reflexivity.
Qed.

(** C6. For a plan path inside the plans directory, once the confirmation is
    resolved (not cancelled) with a plan approval payload whose [approved] is
    false, the [llmContent] of [execute] holds "Plan rejected. Feedback: "
    followed by the payload's feedback, or by "None" when the payload has no
    feedback, and tells the agent to revise the plan; the configuration is
    left as it was, so [setApprovalMode] is not called. *)
Theorem rejected_plan_surfaces_feedback
        (config : Config) (this : ExitPlanModeInvocation)
        (outcome : ToolConfirmationOutcome)
        (p : PlanApprovalConfirmationPayload) :
  withinPlansDir config this = true ->
  outcome <> Cancel ->
  approved p = false ->
  let r := execute config (onConfirm outcome (Some (plan_approval p)) this) in
  let rest :=
    Js.LF ++ Js.LF
    ++ "The plan is stored at: " ++ resolvedPath config this ++ Js.LF
    ++ "Revise the plan based on the feedback." in
  snd r = config
  /\ (forall f, feedback p = Some f ->
        Js.startsWith (llmContent (fst r)) ("Plan rejected. Feedback: " ++ f)
        = true)
  /\ (forall f, feedback p = Some f -> f <> EmptyString ->
        llmContent (fst r) = "Plan rejected. Feedback: " ++ f ++ rest)
  /\ (feedback p = None ->
        llmContent (fst r) = "Plan rejected. Feedback: " ++ "None" ++ rest)
  /\ Js.includes (llmContent (fst r))
       "Revise the plan based on the feedback." = true.
Proof.
  intros Hin Hgo Hno r rest.
  assert (Hr : r = (planRejected (Js.or_else (feedback p) "None")
                                 (resolvedPath config this), config)).
  { unfold r. rewrite (execute_confirmed config this outcome p Hin Hgo).
    now rewrite Hno. }
  rewrite Hr. cbn [fst snd planRejected llmContent]. repeat split.
  - intros f ->. destruct f as [|c f]; [reflexivity|].
    cbn [Js.or_else Js.truthy].
    rewrite <- StringFacts.append_assoc.
    apply StringFacts.startsWith_append.
  - intros f -> Hf. destruct f as [|c f]; [now elim Hf | reflexivity].
  - intros ->. reflexivity.
  - do 6 apply StringFacts.includes_append_right. reflexivity.
Qed.

(** C7. For a plan path inside the plans directory, once the confirmation is
    resolved with the outcome Cancel, [execute] returns the fixed
    cancellation message whatever payload came with the outcome and whatever
    payload was stored before, and leaves the configuration as it was.  More
    generally [execute] changes the configuration, by calling
    [setApprovalMode], only for an invocation that is not cancelled and
    holds an approved payload. *)
Theorem cancelled_plan_keeps_mode
        (config : Config) (this : ExitPlanModeInvocation)
        (payload : option ToolConfirmationPayload) :
  withinPlansDir config this = true ->
  execute config (onConfirm Cancel payload this)
  = ({| llmContent :=
          "User cancelled the plan approval dialog. The plan was not approved and you are still in Plan Mode.";
        returnDisplay := "Cancelled" |}, config)
  /\ (forall that : ExitPlanModeInvocation,
         snd (execute config that) <> config ->
         confirmationOutcome that <> Some Cancel
         /\ exists q, approvalPayload that = Some q /\ approved q = true).
Proof.
  intros Hin. split.
  - rewrite execute_inside by exact Hin. reflexivity.
  - intros that Hchanged.
    destruct (withinPlansDir config that) eqn:Hthat.
    + rewrite (execute_inside config that Hthat) in Hchanged.
      destruct (confirmationOutcome that) as [[| |]|];
        cbn [isCancel] in Hchanged;
        try (now elim Hchanged);
        (split; [discriminate|]);
        (destruct (approvalPayload that) as [q|]; [|now elim Hchanged]);
        (destruct (approved q) eqn:Hq; [|now elim Hchanged]);
        exists q; split; reflexivity || exact Hq.
    + rewrite (execute_outside config that Hthat) in Hchanged.
      now elim Hchanged.
Qed.

(** C9, as the code has it. For a plan path inside the plans directory,
    [execute] on an invocation whose confirmation was never resolved (no
    outcome, no payload) does not return an error result: it returns the
    plan-rejected result with the feedback "None".  It performs no side
    effect: the configuration is left as it was, so [setApprovalMode] is not
    called, and no approval message is produced. *)
Theorem unresolved_confirmation_reads_as_rejection
        (config : Config) (this : ExitPlanModeInvocation) :
  withinPlansDir config this = true ->
  confirmationOutcome this = None ->
  approvalPayload this = None ->
  let r := execute config this in
  llmContent (fst r)
  = "Plan rejected. Feedback: None" ++ Js.LF ++ Js.LF
    ++ "The plan is stored at: " ++ resolvedPath config this ++ Js.LF
    ++ "Revise the plan based on the feedback."
  /\ returnDisplay (fst r) = "Feedback: None"
  /\ isErrorResult (fst r) = false
  /\ snd r = config
  /\ Js.startsWith (llmContent (fst r)) "Plan approved" = false.
Proof.
  intros Hin Hout Hpay r. unfold r.
  rewrite (execute_inside config this Hin), Hout, Hpay.
  repeat split.
Qed.

(** C10. For a plan path inside the plans directory, once the confirmation
    is resolved (not cancelled) with [approved] false and a feedback that is
    present but empty, [execute] prints the feedback as "None" in both
    [llmContent] and [returnDisplay]: the result is the one of a payload
    without feedback. *)
Theorem empty_feedback_reads_as_none
        (config : Config) (this : ExitPlanModeInvocation)
        (outcome : ToolConfirmationOutcome)
        (p : PlanApprovalConfirmationPayload) :
  withinPlansDir config this = true ->
  outcome <> Cancel ->
  approved p = false ->
  feedback p = Some EmptyString ->
  let r := execute config (onConfirm outcome (Some (plan_approval p)) this) in
  let absent :=
    {| approved := false; approvalMode := approvalMode p; feedback := None |} in
  llmContent (fst r)
  = "Plan rejected. Feedback: None" ++ Js.LF ++ Js.LF
    ++ "The plan is stored at: " ++ resolvedPath config this ++ Js.LF
    ++ "Revise the plan based on the feedback."
  /\ returnDisplay (fst r) = "Feedback: None"
  /\ r = execute config (onConfirm outcome (Some (plan_approval absent)) this).
Proof.
  intros Hin Hgo Hno Hempty r absent. unfold r.
  rewrite !(execute_confirmed config this outcome _ Hin Hgo).
  rewrite Hno, Hempty. repeat split.
Qed.

End WithPaths.

(** *** The scenarios of the tool's tests, on POSIX paths *)

(** The plan of the tests against a plans directory elsewhere: the expected
    result of the test "should return error for invalid plan path"; and
    against its own plans directory, where the error is not returned. *)
Lemma execute_sandbox_violation_iff_witness :
  execute (paths := posix "/") movedConfig testPlan
  = ({| llmContent :=
          "Error: Plan path is outside the designated plans directory.";
        returnDisplay :=
          "Error: Plan path is outside the designated plans directory." |},
     movedConfig)
  /\ withinPlansDir (paths := posix "/") mockConfig testPlan <> false.
Proof.
  split.
  - apply (execute_sandbox_violation_iff
             (paths := posix "/") movedConfig testPlan).
    reflexivity.
  - discriminate.
Defined.

(** Approval with the DEFAULT mode: the expected result of the test "should
    return approval message when plan is approved". *)
Lemma approved_plan_switches_mode_witness :
  let r :=
    execute (paths := posix "/") mockConfig
            (onConfirm ProceedOnce (Some (plan_approval approving)) testPlan) in
  getApprovalMode (snd r) = DEFAULT
  /\ setApprovalModeCalls (snd r) = [DEFAULT]
  /\ llmContent (fst r)
     = "Plan approved. Switching to Default mode (edits will require confirmation)."
       ++ Js.LF ++ Js.LF
       ++ "The approved implementation plan is stored at: /mock/dir/plans/test-plan.md"
       ++ Js.LF
       ++ "Read and follow the plan strictly during implementation.".
Proof.
  intros r.
  destruct (approved_plan_switches_mode
              (paths := posix "/") mockConfig testPlan ProceedOnce approving)
    as (Hmode & Hcalls & Htext & _).
  - reflexivity.
  - discriminate.
  - reflexivity.
  - split; [exact Hmode|]. split; [exact Hcalls|]. exact (Htext eq_refl).
Defined.

(** Rejection with feedback: the expected result of the test "should return
    feedback message when plan is rejected". *)
Lemma rejected_plan_surfaces_feedback_witness :
  let r :=
    execute (paths := posix "/") mockConfig
            (onConfirm ProceedOnce
               (Some (plan_approval (rejecting (Some "Please add more details."))))
               testPlan) in
  snd r = mockConfig
  /\ llmContent (fst r)
     = "Plan rejected. Feedback: Please add more details."
       ++ Js.LF ++ Js.LF
       ++ "The plan is stored at: /mock/dir/plans/test-plan.md" ++ Js.LF
       ++ "Revise the plan based on the feedback.".
Proof.
  intros r.
  destruct (rejected_plan_surfaces_feedback
              (paths := posix "/") mockConfig testPlan ProceedOnce
              (rejecting (Some "Please add more details.")))
    as (Hsame & _ & Htext & _).
  - reflexivity.
  - discriminate.
  - reflexivity.
  - split; [exact Hsame|].
    apply (Htext "Please add more details." eq_refl). discriminate.
Defined.

(** Cancellation, here with an approving payload attached. *)
Lemma cancelled_plan_keeps_mode_witness :
  execute (paths := posix "/") mockConfig
          (onConfirm Cancel (Some (plan_approval approving)) testPlan)
  = ({| llmContent :=
          "User cancelled the plan approval dialog. The plan was not approved and you are still in Plan Mode.";
        returnDisplay := "Cancelled" |}, mockConfig).
Proof.
  apply (cancelled_plan_keeps_mode
           (paths := posix "/") mockConfig testPlan
           (Some (plan_approval approving))).
  reflexivity.
Defined.

(** C9, as the claim has it, fails on the plan of the tests: [execute] on the
    freshly built invocation, whose confirmation was never resolved, returns
    a result that is not an error result. *)
Lemma unresolved_confirmation_is_not_an_error :
  withinPlansDir (paths := posix "/") mockConfig testPlan = true
  /\ confirmationOutcome testPlan = None
  /\ approvalPayload testPlan = None
  /\ fst (execute (paths := posix "/") mockConfig testPlan)
     = {| llmContent :=
            "Plan rejected. Feedback: None" ++ Js.LF ++ Js.LF
            ++ "The plan is stored at: /mock/dir/plans/test-plan.md" ++ Js.LF
            ++ "Revise the plan based on the feedback.";
          returnDisplay := "Feedback: None" |}
  /\ ~ isErrorResult (fst (execute (paths := posix "/") mockConfig testPlan))
       = true.
Proof.
  repeat split. discriminate.
Qed.

Lemma unresolved_confirmation_reads_as_rejection_witness :
  let r := execute (paths := posix "/") mockConfig testPlan in
  returnDisplay (fst r) = "Feedback: None"
  /\ isErrorResult (fst r) = false
  /\ snd r = mockConfig.
Proof.
  intros r.
  destruct (unresolved_confirmation_reads_as_rejection
              (paths := posix "/") mockConfig testPlan)
    as (_ & Hshown & Hnoerror & Hsame & _).
  - reflexivity.
  - reflexivity.
  - reflexivity.
  - split; [exact Hshown|]. split; [exact Hnoerror | exact Hsame].
Defined.

Lemma empty_feedback_reads_as_none_witness :
  let r :=
    execute (paths := posix "/") mockConfig
            (onConfirm ProceedOnce
               (Some (plan_approval (rejecting (Some EmptyString)))) testPlan) in
  llmContent (fst r)
  = "Plan rejected. Feedback: None" ++ Js.LF ++ Js.LF
    ++ "The plan is stored at: /mock/dir/plans/test-plan.md" ++ Js.LF
    ++ "Revise the plan based on the feedback."
  /\ returnDisplay (fst r) = "Feedback: None".
Proof.
  intros r.
  destruct (empty_feedback_reads_as_none
              (paths := posix "/") mockConfig testPlan ProceedOnce
              (rejecting (Some EmptyString)))
    as (Htext & Hshown & _).
  - reflexivity.
  - discriminate.
  - reflexivity.
  - reflexivity.
  - split; [exact Htext | exact Hshown].
Defined.

End PlanApproval.

(** ** The browser agent loop *)

Module AgentLoop.
Import BrowserAgent.

(** *** Reading lists of events *)

Lemma modelCalls_app (xs ys : list Event) :
  modelCalls (xs ++ ys) = modelCalls xs + modelCalls ys.
Proof.
  induction xs as [|e xs IH]; [reflexivity|].
  destruct e; simpl; rewrite ?IH; reflexivity.
Qed.

Lemma toolCalls_app (xs ys : list Event) :
  toolCalls (xs ++ ys) = (toolCalls xs ++ toolCalls ys)%list.
Proof.
  induction xs as [|e xs IH]; [reflexivity|].
  destruct e; simpl; rewrite ?IH; reflexivity.
Qed.

Lemma borderActiveFrom_app (b : bool) (xs ys : list Event) :
  borderActiveFrom b (xs ++ ys) = borderActiveFrom (borderActiveFrom b xs) ys.
Proof.
  revert b. induction xs as [|e xs IH]; intros b; [reflexivity|].
  destruct e; simpl; apply IH.
Qed.

(** A state capture calls no tool and no model, and leaves the border on. *)
Lemma capture_events (c : Capture) :
  toolCalls (snd (capture c)) = []
  /\ modelCalls (snd (capture c)) = 0
  /\ forall b, borderActiveFrom b (snd (capture c)) = true.
Proof.
  destruct c; repeat split.
Qed.

Lemma callTool_events (env : Environment) (i j : nat) (call : FunctionCall) :
  toolCalls (snd (callTool env i j call)) = selected call
  /\ modelCalls (snd (callTool env i j call)) = 0.
Proof.
  unfold callTool, selected.
  destruct (selectTool call) as [e|[op|]]; try (split; reflexivity).
  destruct (runTool env i j op); split; reflexivity.
Qed.

Lemma ensureUrl_events (env : Environment) (i j : nat) (r : FuncResult) :
  toolCalls (snd (ensureUrl env i j r)) = []
  /\ modelCalls (snd (ensureUrl env i j r)) = 0.
Proof.
  unfold ensureUrl. destruct (Js.truthy_opt (url r)); split; reflexivity.
Qed.

(** The calls made while one function call is served. *)
Lemma served_events (env : Environment) (i j : nat) (call : FunctionCall)
      (done : list Event) :
  let called := snd (callTool env i j call) in
  let asked := snd (ensureUrl env i j (fst (callTool env i j call))) in
  let captured := snd (capture (captureAfter env i j)) in
  let done' := (done ++ called ++ asked ++ captured)%list in
  toolCalls done' = (toolCalls done ++ selected call)%list
  /\ modelCalls done' = modelCalls done.
Proof.
  intros called asked captured done'. unfold done'.
  destruct (callTool_events env i j call) as [Ht Hm].
  destruct (ensureUrl_events env i j (fst (callTool env i j call))) as [Ut Um].
  destruct (capture_events (captureAfter env i j)) as (Ct & Cm & _).
  rewrite !toolCalls_app, !modelCalls_app.
  fold called asked captured in Ht, Hm, Ut, Um, Ct, Cm.
  rewrite Ht, Hm, Ut, Um, Ct, Cm, app_nil_r. split; [reflexivity | lia].
Qed.

(** One step of the inner loop on a call that needs no confirmation. *)
Lemma executeTools_step (env : Environment) (i j : nat)
      (call : FunctionCall) (rest : list FunctionCall)
      (rs : list Part) (done : list Event) :
  confirmationRequired call = None ->
  exists r done',
    executeTools env i j (call :: rest) rs done
    = executeTools env i (S j) rest (rs ++ [r])%list done'
    /\ toolCalls done' = (toolCalls done ++ selected call)%list
    /\ modelCalls done' = modelCalls done.
Proof.
  intros Hfree. cbn [executeTools]. rewrite Hfree.
  pose proof (served_events env i j call done) as Hserved.
  cbv zeta in Hserved.
  destruct (callTool env i j call) as [r0 called].
  cbn [fst snd] in Hserved.
  destruct (ensureUrl env i j r0) as [r1 asked].
  destruct (capture (captureAfter env i j)) as [[shot dom] captured].
  cbn [fst snd] in Hserved.
  eexists _, _. split; [reflexivity | exact Hserved].
Qed.

(** Without a call that needs confirmation the inner loop runs through. *)
Lemma executeTools_responses (env : Environment) (i : nat)
      (calls : list FunctionCall) :
  Forall (fun c => confirmationRequired c = None) calls ->
  forall j rs done,
  exists rs' done',
    executeTools env i j calls rs done = Responses rs' done'
    /\ toolCalls done' = (toolCalls done ++ flat_map selected calls)%list
    /\ modelCalls done' = modelCalls done.
Proof.
  induction 1 as [|call rest Hfree _ IH]; intros j rs done.
  - exists rs, done. cbn. rewrite app_nil_r. repeat split.
  - destruct (executeTools_step env i j call rest rs done Hfree)
      as (r & done1 & Hstep & Ht & Hm).
    destruct (IH (S j) (rs ++ [r])%list done1) as (rs' & done' & Hrun & Ht' & Hm').
    exists rs', done'. rewrite Hstep, Hrun, Ht', Hm', Ht, Hm.
    cbn [flat_map]. rewrite <- app_assoc. repeat split.
Qed.

(** With a call that needs confirmation the inner loop halts: at that call
    when it is the first such call, at an earlier one otherwise.  The tools
    called are those of the calls before the halting one. *)
Lemma executeTools_halts (env : Environment) (i : nat)
      (call : FunctionCall) (after : list FunctionCall) (message : string) :
  confirmationRequired call = Some message ->
  forall before j rs done,
  exists k halted text done',
    k <= length before
    /\ nth_error (before ++ call :: after) k = Some halted
    /\ confirmationRequired halted = Some text
    /\ executeTools env i j (before ++ call :: after) rs done
       = SafetyHalt text done'
    /\ toolCalls done'
       = (toolCalls done
          ++ flat_map selected (firstn k (before ++ call :: after)))%list
    /\ modelCalls done' = modelCalls done
    /\ (Forall (fun c => confirmationRequired c = None) before ->
        k = length before /\ halted = call /\ text = message).
Proof.
  intros Hcall. induction before as [|b before IH]; intros j rs done.
  - exists 0, call, message, done. cbn. rewrite Hcall, app_nil_r.
    repeat split. lia.
  - destruct (confirmationRequired b) as [text|] eqn:Hb.
    + exists 0, b, text, done. cbn. rewrite Hb, app_nil_r.
      repeat split; try lia;
        match goal with
        | Hall : Forall _ (b :: before) |- _ => inversion Hall; congruence
        end.
    + destruct (executeTools_step env i j b (before ++ call :: after) rs done Hb)
        as (r & done1 & Hstep & Ht & Hm).
      destruct (IH (S j) (rs ++ [r])%list done1)
        as (k & halted & text & done' & Hk & Hnth & Hhalted & Hrun & Ht' & Hm'
            & Hfirst).
      exists (S k), halted, text, done'.
      cbn [length nth_error firstn flat_map app].
      rewrite Hstep, Hrun, Ht', Hm', Ht, Hm, <- app_assoc.
      repeat split; try lia; try assumption;
        match goal with
        | Hall : Forall _ (b :: before) |- _ =>
            apply Forall_inv_tail in Hall;
            destruct (Hfirst Hall) as (-> & -> & ->); reflexivity
        end.
Qed.

(** *** One iteration *)

Lemma observe_events (env : Environment) (i : nat) (s : LoopState) :
  modelCalls (snd (observe env i s)) = S (modelCalls (trace s))
  /\ toolCalls (snd (observe env i s)) = toolCalls (trace s)
  /\ forall b, borderActiveFrom b (snd (observe env i s)) = true.
Proof.
  unfold observe.
  destruct (capture_events (captureBefore env i)) as (Ct & Cm & Cb).
  destruct (capture (captureBefore env i)) as [[shot dom] captured].
  cbn [fst snd] in *.
  rewrite !modelCalls_app, !toolCalls_app, Ct, Cm. cbn.
  rewrite !app_nil_r. repeat split; [lia|].
  intros b. rewrite !borderActiveFrom_app. cbn. apply Cb.
Qed.

Lemma heard_events (log : bool) (asked : list Event) (ps : list Part) :
  modelCalls (heard log asked ps) = modelCalls asked
  /\ toolCalls (heard log asked ps) = toolCalls asked
  /\ forall b,
       borderActiveFrom b (heard log asked ps) = borderActiveFrom b asked.
Proof.
  unfold heard.
  destruct (log && Js.truthy (textParts ps));
    rewrite !modelCalls_app, !toolCalls_app; cbn; rewrite !app_nil_r;
    (repeat split; [lia|]); intros b; now rewrite borderActiveFrom_app.
Qed.

(** [safety_decision.decision === 'require_confirmation'] and the message. *)
Lemma confirmationRequired_spec (call : FunctionCall) (text : string) :
  confirmationRequired call = Some text
  <-> exists a sd,
        args call = Some a /\ safety_decision a = Some sd
        /\ decision sd = "require_confirmation"
        /\ text = safetyMessage (name call) (explanation sd).
Proof.
  unfold confirmationRequired. split.
  - destruct (args call) as [a|]; [|discriminate].
    destruct (safety_decision a) as [sd|] eqn:Hsd; [|discriminate].
    destruct (decision sd =? "require_confirmation") eqn:Hd; [|discriminate].
    intros [= <-]. exists a, sd. apply String.eqb_eq in Hd.
    repeat split; assumption.
  - intros (a & sd & -> & -> & -> & ->). reflexivity.
Qed.

(** The model returns no content: the iteration breaks out of the loop. *)
Lemma iteration_no_content (env : Environment) (log : bool) (i : nat)
      (s : LoopState) :
  generateContent env i (fst (observe env i s)) = NoContent ->
  exists last,
    iteration env log i s = Break last
    /\ trace last = snd (observe env i s).
Proof.
  unfold iteration. destruct (observe env i s) as [contents1 asked].
  cbn [fst snd]. intros ->. eexists. split; reflexivity.
Qed.

(** The model returns a turn without function calls: the iteration returns
    the text after [removeOverlay()]. *)
Lemma iteration_completes (env : Environment) (log : bool) (i : nat)
      (s : LoopState) (response : Content) :
  generateContent env i (fst (observe env i s)) = Candidate response ->
  callsOf response = [] ->
  iteration env log i s
  = Return
      {| completion := Returned (finalText (Js.nullish (parts response) []));
         effects :=
           (heard log (snd (observe env i s)) (Js.nullish (parts response) [])
            ++ [RemoveOverlay])%list |}.
Proof.
  unfold iteration, callsOf. destruct (observe env i s) as [contents1 asked].
  cbn [fst snd]. intros -> ->. reflexivity.
Qed.

(** The model returns function calls, none of which needs confirmation: the
    iteration hands their responses to the next one. *)
Lemma iteration_continues (env : Environment) (log : bool) (i : nat)
      (s : LoopState) (response : Content) :
  generateContent env i (fst (observe env i s)) = Candidate response ->
  callsOf response <> [] ->
  Forall (fun c => confirmationRequired c = None) (callsOf response) ->
  exists next,
    iteration env log i s = Continue next
    /\ modelCalls (trace next) = S (modelCalls (trace s))
    /\ toolCalls (trace next)
       = (toolCalls (trace s) ++ flat_map selected (callsOf response))%list.
Proof.
  intros Hgen Hsome Hfree.
  destruct (observe_events env i s) as (Om & Ot & _).
  unfold iteration. destruct (observe env i s) as [contents1 asked].
  cbn [fst snd] in *. rewrite Hgen.
  set (ps := Js.nullish (parts response) []).
  destruct (heard_events log asked ps) as (Hm & Ht & _).
  destruct (executeTools_responses env i (callsOf response) Hfree
              0 [] (heard log asked ps))
    as (rs & done & Hrun & Ht' & Hm').
  unfold callsOf in *. fold ps in Hrun, Hsome, Ht' |- *.
  destruct (functionCallsOf ps) as [|c calls]; [now elim Hsome|].
  rewrite Hrun. eexists. split; [reflexivity|]. cbn [trace].
  rewrite Hm', Ht', Hm, Ht, Om, Ot. split; reflexivity.
Qed.

(** The model returns a turn in which a function call needs confirmation:
    the iteration returns at the first such call. *)
Lemma iteration_halts (env : Environment) (log : bool) (i : nat)
      (s : LoopState) (response : Content)
      (before : list FunctionCall) (call : FunctionCall)
      (after : list FunctionCall) (message : string) :
  generateContent env i (fst (observe env i s)) = Candidate response ->
  callsOf response = (before ++ call :: after)%list ->
  confirmationRequired call = Some message ->
  exists k halted text done,
    k <= length before
    /\ nth_error (callsOf response) k = Some halted
    /\ confirmationRequired halted = Some text
    /\ iteration env log i s
       = Return {| completion := Returned text; effects := done |}
    /\ toolCalls done
       = (toolCalls (trace s)
          ++ flat_map selected (firstn k (callsOf response)))%list
    /\ modelCalls done = S (modelCalls (trace s))
    /\ (Forall (fun c => confirmationRequired c = None) before ->
        k = length before /\ halted = call /\ text = message).
Proof.
  intros Hgen Hcalls Hcall.
  destruct (observe_events env i s) as (Om & Ot & _).
  unfold iteration. destruct (observe env i s) as [contents1 asked].
  cbn [fst snd] in *. rewrite Hgen.
  set (ps := Js.nullish (parts response) []).
  destruct (heard_events log asked ps) as (Hm & Ht & _).
  destruct (executeTools_halts env i call after message Hcall
              before 0 [] (heard log asked ps))
    as (k & halted & text & done & Hk & Hnth & Hhalted & Hrun & Ht' & Hm'
        & Hfirst).
  unfold callsOf in *. fold ps in Hcalls |- *. rewrite Hcalls.
  exists k, halted, text, done.
  replace (match (before ++ call :: after)%list with
           | [] => _
           | _ :: _ => _
           end)
    with (Return {| completion := Returned text; effects := done |}).
  - rewrite Ht', Hm', Hm, Ht, Om, Ot.
    split; [exact Hk|]. split; [exact Hnth|]. split; [exact Hhalted|].
    split; [reflexivity|]. split; [reflexivity|].
    split; [reflexivity | exact Hfirst].
  - destruct before; cbn [app] in *; now rewrite Hrun.
Qed.

(** *** The loop and [runTask] *)

Lemma run_enters (env : Environment) (log : bool) (prompt : string)
      (before : list Event) :
  checkBrowser env log = inr before ->
  runTask env log prompt
  = loop env log MAX_ITERATIONS 0 (initialState prompt before).
Proof.
  unfold runTask. now intros ->.
Qed.

(** No model is called before the loop. *)
Lemma checkBrowser_events (env : Environment) (log : bool)
      (before : list Event) :
  checkBrowser env log = inr before ->
  modelCalls before = 0 /\ toolCalls before = [].
Proof.
  unfold checkBrowser.
  destruct (firstPage env) as [e|]; [|intros [= <-]; split; reflexivity].
  destruct (playwrightMissing e); [discriminate|].
  destruct log; intros [= <-]; split; reflexivity.
Qed.

Lemma reaches_bound (env : Environment) (log : bool) (prompt : string)
      (i : nat) (s : LoopState) :
  reaches env log prompt i s -> i < MAX_ITERATIONS.
Proof.
  destruct 1; [unfold MAX_ITERATIONS; lia | assumption].
Qed.

(** A state that [runTask] reaches decides the rest of the run. *)
Lemma run_reaches (env : Environment) (log : bool) (prompt : string)
      (i : nat) (s : LoopState) :
  reaches env log prompt i s ->
  runTask env log prompt = loop env log (MAX_ITERATIONS - i) i s.
Proof.
  induction 1 as [before Hcheck | i s next Hreach IH Hlt Hstep].
  - now apply run_enters.
  - rewrite IH.
    replace (MAX_ITERATIONS - i) with (S (MAX_ITERATIONS - S i)) by lia.
    cbn [loop]. now rewrite Hstep.
Qed.

(** The run from a reached state, read off the iteration that starts there. *)
Lemma run_step (env : Environment) (log : bool) (prompt : string)
      (i : nat) (s : LoopState) :
  reaches env log prompt i s ->
  runTask env log prompt
  = match iteration env log i s with
    | Continue next => loop env log (MAX_ITERATIONS - S i) (S i) next
    | Break last => afterLoop last
    | Return result => result
    end.
Proof.
  intros Hreach. rewrite (run_reaches env log prompt i s Hreach).
  pose proof (reaches_bound env log prompt i s Hreach) as Hlt.
  replace (MAX_ITERATIONS - i) with (S (MAX_ITERATIONS - S i)) by lia.
  reflexivity.
Qed.

(** While the model keeps asking for tools that need no confirmation, the
    loop uses up its iterations. *)
Lemma loop_exhausts (env : Environment) (log : bool) :
  (forall i history, exists response,
      generateContent env i history = Candidate response
      /\ callsOf response <> []
      /\ Forall (fun c => confirmationRequired c = None) (callsOf response)) ->
  forall remaining i s,
    completion (loop env log remaining i s) = Returned exhaustedMessage
    /\ modelCalls (effects (loop env log remaining i s))
       = modelCalls (trace s) + remaining.
Proof.
  intros Hmodel. induction remaining as [|remaining IH]; intros i s.
  - cbn. rewrite modelCalls_app. cbn. split; [reflexivity | lia].
  - destruct (Hmodel i (fst (observe env i s)))
      as (response & Hgen & Hsome & Hfree).
    destruct (iteration_continues env log i s response Hgen Hsome Hfree)
      as (next & Hstep & Hm & _).
    cbn [loop]. rewrite Hstep.
    destruct (IH (S i) next) as [Hdone Hcount].
    rewrite Hdone, Hcount, Hm. split; [reflexivity | lia].
Qed.

(** Releasing the overlays leaves the border inactive. *)
Lemma released_inactive (events : list Event) :
  released events -> borderActive events = false.
Proof.
  intros (before & capturing & ->).
  unfold borderActive. now rewrite borderActiveFrom_app.
Qed.

(** *** The claims *)

(** C1. Take any model turn of a run of [runTask] and any function call in it
    whose arguments hold [safety_decision.decision = "require_confirmation"].
    The run returns the safety message of a call [halted] of that turn that
    asks for confirmation and stands at position [k], at or before the given
    call; the message names the tool of [halted] and the explanation of its
    safety decision.  The browser tools called in that turn are those of the
    first [k] calls only, so neither the given call nor a later one is
    executed, and the model is not called again.  When no earlier call of the
    turn asks for confirmation, [halted] is the given call itself. *)
Theorem safety_confirmation_halts_the_loop
        (env : Environment) (log : bool) (prompt : string)
        (i : nat) (s : LoopState) (response : Content)
        (before : list FunctionCall) (call : FunctionCall)
        (after : list FunctionCall) (a : Args) (sd : SafetyDecision) :
  reaches env log prompt i s ->
  generateContent env i (fst (observe env i s)) = Candidate response ->
  callsOf response = (before ++ call :: after)%list ->
  args call = Some a ->
  safety_decision a = Some sd ->
  decision sd = "require_confirmation" ->
  let run := runTask env log prompt in
  exists k halted a' sd',
    k <= length before
    /\ nth_error (callsOf response) k = Some halted
    /\ args halted = Some a'
    /\ safety_decision a' = Some sd'
    /\ decision sd' = "require_confirmation"
    /\ completion run
       = Returned
           ("Action Required: The model requested a safety confirmation for the action "
            ++ Js.QUOTE ++ Js.interpolate (name halted) ++ Js.QUOTE
            ++ ". Please confirm if you want to proceed with: "
            ++ explanation sd')
    /\ toolCalls (effects run)
       = (toolCalls (trace s)
          ++ flat_map selected (firstn k (callsOf response)))%list
    /\ modelCalls (effects run) = S (modelCalls (trace s))
    /\ (Forall (fun c => confirmationRequired c = None) before ->
        k = length before /\ halted = call /\ sd' = sd).
Proof.
  intros Hreach Hgen Hcalls Hargs Hsd Hdecision run.
  assert (Hcall : confirmationRequired call
                  = Some (safetyMessage (name call) (explanation sd))).
  { apply confirmationRequired_spec. exists a, sd. repeat split; assumption. }
  destruct (iteration_halts env log i s response before call after _
              Hgen Hcalls Hcall)
    as (k & halted & text & done & Hk & Hnth & Hhalted & Hstep & Ht & Hm
        & Hfirst).
  apply confirmationRequired_spec in Hhalted.
  destruct Hhalted as (a' & sd' & Ha' & Hsd' & Hd' & ->).
  exists k, halted, a', sd'. unfold run.
  rewrite (run_step env log prompt i s Hreach), Hstep. cbn [completion effects].
  split; [exact Hk|]. split; [exact Hnth|]. split; [exact Ha'|].
  split; [exact Hsd'|]. split; [exact Hd'|]. split; [reflexivity|].
  split; [exact Ht|]. split; [exact Hm|].
  intros Hfree. destruct (Hfirst Hfree) as (-> & -> & _).
  split; [reflexivity|]. split; [reflexivity|]. congruence.
Qed.

(** C8. When the browser check does not end the run and the model answers
    every call with a turn that holds at least one function call, none of
    them asking for confirmation, [runTask] calls the model MAX_ITERATIONS
    = 20 times, once per iteration, and returns the message that names that
    bound. *)
Theorem exhausts_after_max_iterations
        (env : Environment) (log : bool) (prompt : string) :
  (forall e, firstPage env = Some e -> playwrightMissing e = false) ->
  (forall i history, exists response,
      generateContent env i history = Candidate response
      /\ callsOf response <> []
      /\ Forall (fun c => confirmationRequired c = None) (callsOf response)) ->
  let run := runTask env log prompt in
  completion run
  = Returned
      "The browser agent reached the maximum number of steps (20) without completing the task. Please try refining your prompt or breaking the task into smaller steps."
  /\ modelCalls (effects run) = MAX_ITERATIONS
  /\ MAX_ITERATIONS = 20.
Proof.
  intros Hbrowser Hmodel run.
  assert (Hcheck : exists before, checkBrowser env log = inr before).
  { unfold checkBrowser. destruct (firstPage env) as [e|] eqn:He.
    - rewrite (Hbrowser e eq_refl). eexists. reflexivity.
    - eexists. reflexivity. }
  destruct Hcheck as [before Hcheck].
  destruct (checkBrowser_events env log before Hcheck) as [Hnone _].
  unfold run. rewrite (run_enters env log prompt before Hcheck).
  destruct (loop_exhausts env log Hmodel MAX_ITERATIONS 0
              (initialState prompt before)) as [Hdone Hcount].
  rewrite Hdone, Hcount. cbn [initialState trace].
  rewrite modelCalls_app, Hnone. repeat split.
Qed.

(** C4, on the code. With the browser available and a model that returns no
    content at its first call, [runTask] leaves the loop after one model call
    and returns the message of the exhausted loop, not an empty result. *)
Theorem no_content_reports_exhaustion
        (base : Environment) (log : bool) (prompt : string) :
  let env := Scenarios.modelAlways NoContent (Scenarios.browserUp base) in
  let run := runTask env log prompt in
  completion run
  = Returned
      "The browser agent reached the maximum number of steps (20) without completing the task. Please try refining your prompt or breaking the task into smaller steps."
  /\ completion run <> Returned EmptyString
  /\ modelCalls (effects run) = 1.
Proof.
  intros env run. unfold run.
  rewrite (run_enters env log prompt [GetPage] eq_refl).
  unfold MAX_ITERATIONS. cbn [loop].
  destruct (iteration_no_content env log 0 (initialState prompt [GetPage])
              eq_refl) as (last & -> & Hlast).
  destruct (observe_events env 0 (initialState prompt [GetPage]))
    as (Hm & _ & _).
  cbn [afterLoop completion effects].
  rewrite modelCalls_app, Hlast, Hm.
  split; [reflexivity|]. split; [discriminate | reflexivity].
Qed.

(** C3, on the code. With the browser available, a run that ends because the
    model answered with text only returns after [removeOverlay()] with the
    border overlay still active; and a run that ends on a safety decision
    returns with the border overlay still active and without a closing
    [removeOverlay()].  Neither run releases the overlays the way the
    statements after the loop do. *)
Theorem returns_inside_the_loop_keep_the_border
        (base : Environment) (log : bool) (prompt answer toolName why : string) :
  let finished :=
    runTask (Scenarios.modelAlways (Scenarios.turn [textPart answer])
                                   (Scenarios.browserUp base))
            log prompt in
  let halted :=
    runTask (Scenarios.modelAlways
               (Scenarios.turn
                  [functionCallPart (Scenarios.guardedCall toolName why)])
               (Scenarios.browserUp base))
            log prompt in
  (completion finished = Returned answer
   /\ (exists before, effects finished = (before ++ [RemoveOverlay])%list)
   /\ borderActive (effects finished) = true
   /\ ~ released (effects finished))
  /\ (completion halted = Returned (safetyMessage (Some toolName) why)
      /\ (exists before,
             effects halted = (before ++ [LogFullTurn; LogSummary])%list)
      /\ borderActive (effects halted) = true
      /\ ~ released (effects halted)).
Proof.
  intros finished halted.
  assert (Hkeeps : forall events,
             borderActive events = true -> ~ released events).
  { intros events Hon Hoff. apply released_inactive in Hoff. congruence. }
  split.
  - set (env := Scenarios.modelAlways (Scenarios.turn [textPart answer])
                                     (Scenarios.browserUp base)).
    set (s0 := initialState prompt [GetPage]).
    assert (Hrun : finished
                   = {| completion := Returned answer;
                        effects :=
                          (heard log (snd (observe env 0 s0)) [textPart answer]
                           ++ [RemoveOverlay])%list |}).
    { unfold finished. fold env.
      rewrite (run_enters env log prompt [GetPage] eq_refl).
      unfold MAX_ITERATIONS. cbn [loop]. fold s0.
      now rewrite (iteration_completes env log 0 s0 _ eq_refl eq_refl). }
    assert (Hon : borderActive (effects finished) = true).
    { rewrite Hrun. cbn [effects]. unfold borderActive.
      rewrite borderActiveFrom_app. cbn [borderActiveFrom].
      destruct (heard_events log (snd (observe env 0 s0)) [textPart answer])
        as (_ & _ & ->).
      apply observe_events. }
    split; [now rewrite Hrun|]. split; [rewrite Hrun; now eexists|].
    split; [exact Hon | exact (Hkeeps _ Hon)].
  - set (env := Scenarios.modelAlways
                  (Scenarios.turn
                     [functionCallPart (Scenarios.guardedCall toolName why)])
                  (Scenarios.browserUp base)).
    set (s0 := initialState prompt [GetPage]).
    set (ps := [functionCallPart (Scenarios.guardedCall toolName why)]).
    assert (Hrun : halted
                   = {| completion :=
                          Returned (safetyMessage (Some toolName) why);
                        effects := heard log (snd (observe env 0 s0)) ps |}).
    { unfold halted. fold env.
      rewrite (run_enters env log prompt [GetPage] eq_refl).
      unfold MAX_ITERATIONS. cbn [loop]. fold s0.
      unfold iteration. destruct (observe env 0 s0) as [contents1 asked].
      reflexivity. }
    assert (Hon : borderActive (effects halted) = true).
    { rewrite Hrun. cbn [effects]. unfold borderActive.
      destruct (heard_events log (snd (observe env 0 s0)) ps) as (_ & _ & ->).
      apply observe_events. }
    split; [now rewrite Hrun|]. split.
    + rewrite Hrun. cbn [effects]. unfold heard, ps. cbn.
      rewrite andb_false_r. cbn. now eexists.
    + split; [exact Hon | exact (Hkeeps _ Hon)].
Qed.

(** *** Runs of the scenarios *)

(** The turn of [Scenarios.guardedTurn], met at the first iteration: the page
    is scrolled, the click is not made, the browser is not opened. *)
Lemma safety_confirmation_halts_the_loop_witness :
  let env :=
    Scenarios.modelAlways (Candidate Scenarios.guardedTurn) Scenarios.offline in
  let run := runTask env true "pay the invoice" in
  completion run
  = Returned
      ("Action Required: The model requested a safety confirmation for the action "
       ++ Js.QUOTE ++ "click_at" ++ Js.QUOTE
       ++ ". Please confirm if you want to proceed with: the button submits a payment")
  /\ toolCalls (effects run) = [pagedown]
  /\ modelCalls (effects run) = 1.
Proof.
  intros env run.
  destruct (safety_confirmation_halts_the_loop
              env true "pay the invoice" 0
              (initialState "pay the invoice" [GetPage])
              Scenarios.guardedTurn
              [Scenarios.plainCall "pagedown"]
              (Scenarios.guardedCall "click_at" "the button submits a payment")
              [Scenarios.plainCall "open_web_browser"]
              _ _
              (reaches_first env true "pay the invoice" [GetPage] eq_refl)
              eq_refl eq_refl eq_refl eq_refl eq_refl)
    as (k & halted & a' & sd' & _ & _ & _ & _ & _ & Htext & Htools & Hmodel
        & Hfirst).
  destruct Hfirst as (-> & -> & ->); [repeat constructor|].
  split; [exact Htext|]. split; [exact Htools | exact Hmodel].
Defined.

(** A model that asks to page down at every turn. *)
Lemma exhausts_after_max_iterations_witness :
  let env :=
    Scenarios.modelAlways
      (Scenarios.turn [functionCallPart (Scenarios.plainCall "pagedown")])
      Scenarios.offline in
  let run := runTask env false "scroll to the end" in
  completion run
  = Returned
      "The browser agent reached the maximum number of steps (20) without completing the task. Please try refining your prompt or breaking the task into smaller steps."
  /\ modelCalls (effects run) = 20.
Proof.
  intros env run.
  destruct (exhausts_after_max_iterations env false "scroll to the end")
    as (Htext & Hcount & Hmax).
  - intros e He. discriminate He.
  - intros i history. eexists. split; [reflexivity|]. split.
    + discriminate.
    + repeat constructor.
  - split; [exact Htext|]. now rewrite <- Hmax.
Defined.

End AgentLoop.

(** ** Plan approval: the tool around the invocation *)

Module PlanApprovalTool.
Import ExitPlanMode ExitPlanModeTool PlanScenarios.


Section WithPaths.
Context {paths : PathApi}.

(** The sandbox error of [execute], for any state of the invocation. *)
Lemma execute_violation_iff (config : Config) (this : ExitPlanModeInvocation) :
  fst (execute config this) = outsidePlansDir
  <-> withinPlansDir config this = false.
Proof.
  split.
  - destruct (withinPlansDir config this) eqn:Hin; [|reflexivity].
    rewrite (PlanApproval.execute_inside config this Hin).
    destruct (isCancel (confirmationOutcome this)).
    + intros H. discriminate H.
    + destruct (approvalPayload this) as [p|].
      * destruct (approved p); intros H; discriminate H.
      * intros H. discriminate H.
  - intros Hout. now rewrite (PlanApproval.execute_outside config this Hout).
Qed.


(** X2. Parameters that pass the validation give, under the same
    configuration, an invocation whose confirmation step opens the plan
    approval dialog on the resolved plan path and whose [execute] never
    returns the sandbox error, whatever confirmation is recorded. *)
Theorem validated_params_pass_the_sandbox
        (config : Config) (given : ExitPlanModeParams) :
  validateToolParamValues config given = None ->
  let this := createInvocation given in
  shouldConfirmExecute config this
  = Some {| type := "plan_approval";
            title := "Plan Approval";
            planPath := path_resolve (getTargetDir config) (plan_path given) |}
  /\ (forall outcome payload,
         fst (execute config (onConfirm outcome payload this))
         <> {| llmContent :=
                 "Error: Plan path is outside the designated plans directory.";
               returnDisplay :=
                 "Error: Plan path is outside the designated plans directory." |})
  /\ fst (execute config this)
     <> {| llmContent :=
             "Error: Plan path is outside the designated plans directory.";
           returnDisplay :=
             "Error: Plan path is outside the designated plans directory." |}.
Proof.
  intros Hvalid this.
  assert (Hin : withinPlansDir config this = true).
  { unfold validateToolParamValues in Hvalid.
    destruct (negb (Js.truthy (plan_path given))
              || (JsText.trim (plan_path given) =? EmptyString));
      [discriminate|].
    unfold withinPlansDir, resolvedPath, this. cbn [createInvocation params].
    destruct (isWithinRoot _ _); [reflexivity | discriminate]. }
  destruct (PlanApproval.validated_inside config this Hin) as [Hv Ht].
  split; [|split].
  - unfold shouldConfirmExecute. rewrite Hv. cbn [Js.truthy_opt].
    rewrite Ht. reflexivity.
  - intros outcome payload Hbad.
    apply (execute_violation_iff config (onConfirm outcome payload this)) in Hbad.
    rewrite PlanApproval.withinPlansDir_onConfirm in Hbad. congruence.
  - intros Hbad. apply execute_violation_iff in Hbad. congruence.
Qed.

(** X3. The confirmation step answers "no confirmation needed" exactly when
    [execute] returns the sandbox error: a plan outside the plans directory
    never opens a dialog, and a plan inside always does. *)
Theorem no_dialog_iff_sandbox_error
        (config : Config) (this : ExitPlanModeInvocation) :
  shouldConfirmExecute config this = None
  <-> fst (execute config this)
      = {| llmContent :=
             "Error: Plan path is outside the designated plans directory.";
           returnDisplay :=
             "Error: Plan path is outside the designated plans directory." |}.
Proof.
  rewrite PlanApproval.shouldConfirmExecute_none_iff.
  symmetry. apply execute_violation_iff.
Qed.

(** X4. An approved plan switches to the mode of the payload, and the text
    for the model names it in one of two ways: for AUTO_EDIT it announces the
    Auto-Edit mode, for every other mode it announces the Default mode. *)
Theorem approval_text_knows_two_modes
        (config : Config) (this : ExitPlanModeInvocation)
        (outcome : ToolConfirmationOutcome)
        (p : PlanApprovalConfirmationPayload) (mode : ApprovalMode) :
  withinPlansDir config this = true ->
  outcome <> Cancel ->
  approved p = true ->
  approvalMode p = Some mode ->
  let r := execute config (onConfirm outcome (Some (plan_approval p)) this) in
  getApprovalMode (snd r) = mode
  /\ (mode = AUTO_EDIT ->
      Js.startsWith (llmContent (fst r))
        "Plan approved. Switching to Auto-Edit mode (edits will be applied automatically)."
      = true)
  /\ (mode <> AUTO_EDIT ->
      Js.startsWith (llmContent (fst r))
        "Plan approved. Switching to Default mode (edits will require confirmation)."
      = true).
Proof.
  intros Hin Hgo Hyes Hmode r. unfold r.
  rewrite (PlanApproval.execute_confirmed config this outcome p Hin Hgo).
  rewrite Hyes, Hmode.
  cbn [Js.nullish fst snd planApproved llmContent setApprovalMode
       getApprovalMode].
  split; [reflexivity|]. split.
  - intros ->. reflexivity.
  - intros Hother. destruct mode; [reflexivity | now elim Hother | reflexivity].
Qed.

(** X5. A confirmation that is resolved without a plan approval payload (no
    payload, or a payload of another type) on an invocation that holds none
    is read as a rejection without feedback, also when the outcome is to
    proceed: the text for the model is the rejection with "None", and the
    approval mode is not touched. *)
Theorem proceeding_without_payload_rejects
        (config : Config) (this : ExitPlanModeInvocation)
        (outcome : ToolConfirmationOutcome)
        (payload : option ToolConfirmationPayload) :
  withinPlansDir config this = true ->
  outcome <> Cancel ->
  approvalPayload this = None ->
  (forall p, payload <> Some (plan_approval p)) ->
  execute config (onConfirm outcome payload this)
  = ({| llmContent :=
          "Plan rejected. Feedback: None" ++ Js.LF ++ Js.LF
          ++ "The plan is stored at: " ++ resolvedPath config this ++ Js.LF
          ++ "Revise the plan based on the feedback.";
        returnDisplay := "Feedback: None" |}, config).
Proof.
  intros Hin Hgo Hnone Hother.
  rewrite PlanApproval.execute_inside by exact Hin.
  cbn [onConfirm confirmationOutcome approvalPayload].
  rewrite (PlanApproval.not_cancel outcome Hgo).
  destruct payload as [[p|t]|]; [now elim (Hother p) | |]; now rewrite Hnone.
Qed.

(** X6. The invocation keeps the last outcome and the last plan approval
    payload it was given: a later confirmation without such a payload
    replaces the outcome but not the payload, so [execute] answers as if the
    stored payload had come with the later outcome. *)
Theorem stored_payload_survives
        (config : Config) (this : ExitPlanModeInvocation)
        (first later : ToolConfirmationOutcome)
        (p : PlanApprovalConfirmationPayload)
        (payload : option ToolConfirmationPayload) :
  (forall q, payload <> Some (plan_approval q)) ->
  execute config
    (onConfirm later payload (onConfirm first (Some (plan_approval p)) this))
  = execute config (onConfirm later (Some (plan_approval p)) this).
Proof.
  intros Hother.
  destruct payload as [[q|t]|]; [now elim (Hother q) | |]; reflexivity.
Qed.


(** X7. Whatever the invocation holds, [execute] leaves the target directory
    and the plans directory of the configuration alone, and calls
    [setApprovalMode] at most once: either the configuration is returned as
    it was, or the log of calls grew by the one mode that is now current. *)
Theorem execute_touches_the_mode_only
        (config : Config) (this : ExitPlanModeInvocation) :
  let config' := snd (execute config this) in
  getTargetDir config' = getTargetDir config
  /\ getProjectTempPlansDir config' = getProjectTempPlansDir config
  /\ (config' = config
      \/ setApprovalModeCalls config'
         = getApprovalMode config' :: setApprovalModeCalls config).
Proof.
  cbv zeta. destruct (withinPlansDir config this) eqn:Hin.
  - rewrite (PlanApproval.execute_inside config this Hin).
    destruct (isCancel (confirmationOutcome this)); [cbn; auto|].
    destruct (approvalPayload this) as [p|]; [|cbn; auto].
    destruct (approved p); cbn; auto.
  - rewrite (PlanApproval.execute_outside config this Hin). cbn. auto.
Qed.


End WithPaths.

(** *** Runs on the plan of the tests *)

Lemma validated_params_pass_the_sandbox_witness :
  shouldConfirmExecute (paths := posix "/") mockConfig testPlan
  = Some {| type := "plan_approval";
            title := "Plan Approval";
            planPath := "/mock/dir/plans/test-plan.md" |}.
Proof.
  apply (validated_params_pass_the_sandbox
           (paths := posix "/") mockConfig
           {| plan_path := "plans/test-plan.md" |}).
  reflexivity.
Defined.

Lemma approval_text_knows_two_modes_witness :
  let r :=
    execute (paths := posix "/") mockConfig
      (onConfirm ProceedOnce
         (Some (plan_approval
                  {| approved := true; approvalMode := Some AUTO_EDIT;
                     feedback := None |})) testPlan) in
  getApprovalMode (snd r) = AUTO_EDIT
  /\ Js.startsWith (llmContent (fst r))
       "Plan approved. Switching to Auto-Edit mode (edits will be applied automatically)."
     = true.
Proof.
  intros r.
  destruct (approval_text_knows_two_modes
              (paths := posix "/") mockConfig testPlan ProceedOnce
              {| approved := true; approvalMode := Some AUTO_EDIT;
                 feedback := None |} AUTO_EDIT)
    as (Hmode & Hauto & _).
  - reflexivity.
  - discriminate.
  - reflexivity.
  - reflexivity.
  - split; [exact Hmode | exact (Hauto eq_refl)].
Defined.

Lemma proceeding_without_payload_rejects_witness :
  execute (paths := posix "/") mockConfig (onConfirm ProceedOnce None testPlan)
  = ({| llmContent :=
          "Plan rejected. Feedback: None" ++ Js.LF ++ Js.LF
          ++ "The plan is stored at: /mock/dir/plans/test-plan.md" ++ Js.LF
          ++ "Revise the plan based on the feedback.";
        returnDisplay := "Feedback: None" |}, mockConfig).
Proof.
  apply (proceeding_without_payload_rejects
           (paths := posix "/") mockConfig testPlan ProceedOnce None).
  - reflexivity.
  - discriminate.
  - reflexivity.
  - discriminate.
Defined.

(** Approval first, then a bare Cancel: the run is cancelled; approval first,
    then a bare ProceedAlways: the stored approval is carried out. *)
Lemma stored_payload_survives_witness :
  getApprovalMode
    (snd (execute (paths := posix "/") mockConfig
            (onConfirm ProceedAlways None
               (onConfirm ProceedOnce (Some (plan_approval approving))
                  testPlan))))
  = DEFAULT.
Proof.
  rewrite (stored_payload_survives
             (paths := posix "/") mockConfig testPlan ProceedOnce ProceedAlways
             approving None).
  - reflexivity.
  - discriminate.
Defined.

End PlanApprovalTool.

(** ** The browser agent loop: more of [runTask] *)

Module AgentRuns.
Import BrowserAgent AgentReading AgentLoop.

(** *** The calls recorded so far do not steer the loop *)

Lemma executeTools_after (env : Environment) (i : nat)
      (before : list Event) (calls : list FunctionCall) :
  forall j rs done,
    executeTools env i j calls rs (before ++ done)%list
    = dispatchAfter before (executeTools env i j calls rs done).
Proof.
  induction calls as [|call calls IH]; intros j rs done; [reflexivity|].
  cbn [executeTools].
  destruct (confirmationRequired call); [reflexivity|].
  destruct (callTool env i j call) as [r0 called].
  destruct (ensureUrl env i j r0) as [r1 asked].
  destruct (capture (captureAfter env i j)) as [[shot dom] captured].
  rewrite <- app_assoc. apply IH.
Qed.

Lemma iteration_after (env : Environment) (log : bool) (i : nat)
      (before : list Event) (s : LoopState) :
  iteration env log i (after before s)
  = stepAfter before (iteration env log i s).
Proof.
  unfold iteration, observe, heard. cbn [after contents currentPrompt trace].
  destruct (capture (captureBefore env i)) as [[shot dom] captured].
  destruct (generateContent env i _) as [|response|e];
    cbn [stepAfter after runAfter completion effects contents currentPrompt
         trace]; rewrite <- ?app_assoc; try reflexivity.
  destruct (functionCallsOf (Js.nullish (parts response) [])) as [|c calls].
  - cbn [stepAfter runAfter completion effects].
    rewrite <- ?app_assoc. reflexivity.
  - rewrite executeTools_after.
    destruct (executeTools env i 0 (c :: calls) [] _); reflexivity.
Qed.

Lemma loop_after (env : Environment) (log : bool) (before : list Event) :
  forall remaining i s,
    loop env log remaining i (after before s)
    = runAfter before (loop env log remaining i s).
Proof.
  assert (Hend : forall s, afterLoop (after before s)
                           = runAfter before (afterLoop s)).
  { intros s. unfold afterLoop, runAfter, after.
    cbn [trace completion effects]. now rewrite <- app_assoc. }
  induction remaining as [|remaining IH]; intros i s.
  - apply Hend.
  - cbn [loop]. rewrite iteration_after.
    destruct (iteration env log i s) as [next|last|result];
      cbn [stepAfter]; [apply IH | apply Hend | reflexivity].
Qed.

(** *** The loop does not look at [firstPage] *)

Lemma executeTools_browserUp (env : Environment) (i : nat)
      (calls : list FunctionCall) :
  forall j rs done,
    executeTools (Scenarios.browserUp env) i j calls rs done
    = executeTools env i j calls rs done.
Proof.
  induction calls as [|call calls IH]; intros j rs done; [reflexivity|].
  cbn [executeTools].
  destruct (confirmationRequired call); [reflexivity|].
  change (callTool (Scenarios.browserUp env) i j call)
    with (callTool env i j call).
  destruct (callTool env i j call) as [r0 called].
  change (ensureUrl (Scenarios.browserUp env) i j r0)
    with (ensureUrl env i j r0).
  destruct (ensureUrl env i j r0) as [r1 asked].
  change (captureAfter (Scenarios.browserUp env)) with (captureAfter env).
  destruct (capture (captureAfter env i j)) as [[shot dom] captured].
  apply IH.
Qed.

Lemma loop_browserUp (env : Environment) (log : bool) :
  forall remaining i s,
    loop (Scenarios.browserUp env) log remaining i s
    = loop env log remaining i s.
Proof.
  induction remaining as [|remaining IH]; intros i s; [reflexivity|].
  cbn [loop].
  assert (Hstep : iteration (Scenarios.browserUp env) log i s
                  = iteration env log i s).
  { unfold iteration, observe.
    change (captureBefore (Scenarios.browserUp env)) with (captureBefore env).
    destruct (capture (captureBefore env i)) as [[shot dom] captured].
    change (generateContent (Scenarios.browserUp env))
      with (generateContent env).
    destruct (generateContent env i _) as [|response|e]; try reflexivity.
    destruct (functionCallsOf (Js.nullish (parts response) [])) as [|c calls];
      [reflexivity|].
    now rewrite executeTools_browserUp. }
  rewrite Hstep.
  destruct (iteration env log i s); [apply IH | reflexivity | reflexivity].
Qed.

(** X9. When the browser check fails because Playwright is not installed (an
    [Error] whose message holds "Playwright is not installed"), [runTask]
    returns "Error: " with that message at once: the model is not called, no
    browser tool is called, and no overlay is drawn or removed. *)
Theorem missing_playwright_returns_at_once
        (env : Environment) (log : bool) (prompt message : string) :
  firstPage env = Some (Js.ThrownError message) ->
  Js.includes message "Playwright is not installed" = true ->
  runTask env log prompt
  = {| completion := Returned ("Error: " ++ message);
       effects := [GetPage] |}.
Proof.
  intros Hpage Hmissing. unfold runTask, checkBrowser.
  rewrite Hpage. cbn [playwrightMissing]. now rewrite Hmissing.
Qed.

(** X10. A failure of the browser check that is not the missing Playwright
    error does not change what [runTask] returns: the run is the one of an
    available browser, with, when a [log] callback is given, one warning
    logged right after the check. *)
Theorem launch_failure_only_warns
        (env : Environment) (log : bool) (prompt : string) (e : Js.thrown) :
  firstPage env = Some e ->
  playwrightMissing e = false ->
  let failed := runTask env log prompt in
  let fine := runTask (Scenarios.browserUp env) log prompt in
  completion failed = completion fine
  /\ exists rest,
       effects fine = GetPage :: rest
       /\ effects failed
          = GetPage
            :: ((if log
                 then [Log ("Warning: Failed to launch browser: "
                            ++ Js.describe e)]
                 else [])
                ++ rest)%list.
Proof.
  intros Hpage Hother failed fine.
  set (s0 := {| contents := [];
                currentPrompt := promptText (systemInstruction ++ prompt);
                trace := [UpdateBorderOverlay true false] |}).
  set (warning := if log
                  then [Log ("Warning: Failed to launch browser: "
                             ++ Js.describe e)]
                  else []).
  assert (Hfine : fine = runAfter [GetPage] (loop env log MAX_ITERATIONS 0 s0)).
  { unfold fine, runTask. cbn [checkBrowser Scenarios.browserUp firstPage].
    rewrite loop_browserUp. rewrite <- loop_after. reflexivity. }
  assert (Hfailed : failed
                    = runAfter (GetPage :: warning)
                               (loop env log MAX_ITERATIONS 0 s0)).
  { unfold failed, runTask, checkBrowser. rewrite Hpage, Hother.
    rewrite <- loop_after. unfold initialState, after, s0, warning.
    cbn [contents currentPrompt trace]. now rewrite <- app_assoc. }
  rewrite Hfine, Hfailed. split; [reflexivity|].
  eexists. split; reflexivity.
Qed.

(** *** Counting model calls and log messages *)

Lemma modelCalls_quiet (events : list Event) :
  forallb quiet events = true -> modelCalls events = 0.
Proof.
  induction events as [|e events IH]; [reflexivity|].
  destruct e; cbn; try discriminate; exact IH.
Qed.

Lemma logs_quiet (events : list Event) :
  forallb quiet events = true -> logs events = [].
Proof.
  induction events as [|e events IH]; [reflexivity|].
  destruct e; cbn; try discriminate; exact IH.
Qed.

Lemma logs_app (xs ys : list Event) :
  logs (xs ++ ys) = (logs xs ++ logs ys)%list.
Proof.
  induction xs as [|e xs IH]; [reflexivity|].
  destruct e; cbn; rewrite ?IH; reflexivity.
Qed.

Lemma capture_quiet (c : Capture) : forallb quiet (snd (capture c)) = true.
Proof. destruct c; reflexivity. Qed.

(** Serving function calls adds only quiet events to the calls recorded. *)
Lemma executeTools_quiet (env : Environment) (i : nat)
      (calls : list FunctionCall) :
  forall j rs done,
  exists extra,
    forallb quiet extra = true
    /\ match executeTools env i j calls rs done with
       | SafetyHalt _ done' | Responses _ done' =>
           done' = (done ++ extra)%list
       end.
Proof.
  induction calls as [|call calls IH]; intros j rs done.
  - exists []. cbn. now rewrite app_nil_r.
  - cbn [executeTools].
    destruct (confirmationRequired call).
    + exists []. cbn. now rewrite app_nil_r.
    + assert (Hcalled : forallb quiet (snd (callTool env i j call)) = true).
      { unfold callTool. destruct (selectTool call) as [e|[op|]];
          try reflexivity. destruct (runTool env i j op); reflexivity. }
      destruct (callTool env i j call) as [r0 called].
      assert (Hasked : forallb quiet (snd (ensureUrl env i j r0)) = true).
      { unfold ensureUrl. destruct (Js.truthy_opt (url r0)); reflexivity. }
      destruct (ensureUrl env i j r0) as [r1 asked].
      pose proof (capture_quiet (captureAfter env i j)) as Hcaptured.
      destruct (capture (captureAfter env i j)) as [[shot dom] captured].
      cbn [snd] in Hcalled, Hasked, Hcaptured.
      destruct (IH (S j)
                  (rs ++ [responsePart call r1 shot dom])%list
                  (done ++ called ++ asked ++ captured)%list)
        as (extra & Hquiet & Hrun).
      exists (called ++ asked ++ captured ++ extra)%list. split.
      * rewrite !forallb_app, Hcalled, Hasked, Hcaptured, Hquiet. reflexivity.
      * destruct (executeTools env i (S j) calls _ _);
          rewrite Hrun, <- !app_assoc; reflexivity.
Qed.

(** One iteration calls the model once and, without a [log] callback, logs
    nothing. *)
Lemma iteration_counts (env : Environment) (log : bool) (i : nat)
      (s : LoopState) :
  exists extra,
    modelCalls extra = 1
    /\ (log = false -> logs extra = [])
    /\ match iteration env log i s with
       | Continue next => trace next = (trace s ++ extra)%list
       | Break last => trace last = (trace s ++ extra)%list
       | Return result => effects result = (trace s ++ extra)%list
       end.
Proof.
  unfold iteration, observe, heard.
  pose proof (capture_quiet (captureBefore env i)) as Hcaptured.
  destruct (capture (captureBefore env i)) as [[shot dom] captured].
  cbn [snd] in Hcaptured.
  pose proof (modelCalls_quiet captured Hcaptured) as Hm.
  pose proof (logs_quiet captured Hcaptured) as Hl.
  set (contents1 := (contents s ++ [newContent (currentPrompt s) shot dom])%list).
  destruct (generateContent env i contents1) as [|response|e].
  - exists (captured ++ [GenerateContent contents1])%list.
    rewrite modelCalls_app, logs_app, Hm, Hl. repeat split.
  - set (ps := Js.nullish (parts response) []).
    set (said := if log && Js.truthy (textParts ps)
                 then [Log (textParts ps)] else []).
    assert (Hsaid : modelCalls said = 0 /\ (log = false -> logs said = [])).
    { unfold said. destruct log; [|split; reflexivity].
      destruct (Js.truthy (textParts ps)); split; reflexivity || discriminate. }
    destruct Hsaid as [Hsm Hsl].
    destruct (functionCallsOf ps) as [|c calls].
    + exists (captured ++ [GenerateContent contents1]
              ++ [LogFullTurn; LogSummary] ++ said ++ [RemoveOverlay])%list.
      split; [|split].
      * rewrite !modelCalls_app, Hm, Hsm. reflexivity.
      * intros Hlog. rewrite !logs_app, Hl, (Hsl Hlog). reflexivity.
      * now rewrite <- !app_assoc.
    + destruct (executeTools_quiet env i (c :: calls) 0 []
                  ((trace s ++ captured ++ [GenerateContent contents1])
                   ++ [LogFullTurn; LogSummary] ++ said)%list)
        as (extra & Hquiet & Hrun).
      exists (captured ++ [GenerateContent contents1]
              ++ [LogFullTurn; LogSummary] ++ said ++ extra)%list.
      split; [|split].
      * rewrite !modelCalls_app, Hm, Hsm, (modelCalls_quiet extra Hquiet).
        reflexivity.
      * intros Hlog.
        rewrite !logs_app, Hl, (Hsl Hlog), (logs_quiet extra Hquiet).
        reflexivity.
      * destruct (executeTools env i 0 (c :: calls) [] _);
          cbn [trace effects]; rewrite Hrun, <- !app_assoc; reflexivity.
  - exists (captured ++ [GenerateContent contents1])%list.
    rewrite modelCalls_app, logs_app, Hm, Hl. repeat split.
Qed.

Lemma loop_counts (env : Environment) (log : bool) :
  forall remaining i s,
  exists extra,
    effects (loop env log remaining i s) = (trace s ++ extra)%list
    /\ modelCalls extra <= remaining
    /\ (log = false -> logs extra = []).
Proof.
  induction remaining as [|remaining IH]; intros i s.
  - exists [RemoveOverlay; UpdateBorderOverlay false false].
    split; [reflexivity|]. split; [cbn; lia | reflexivity].
  - cbn [loop].
    destruct (iteration_counts env log i s) as (extra & Hm & Hl & Hstep).
    destruct (iteration env log i s) as [next|last|result].
    + destruct (IH (S i) next) as (more & Heff & Hm' & Hl').
      exists (extra ++ more)%list.
      rewrite Heff, Hstep, <- app_assoc, modelCalls_app, logs_app, Hm.
      split; [reflexivity|]. split; [lia|].
      intros Hlog. now rewrite (Hl Hlog), (Hl' Hlog).
    + exists (extra ++ [RemoveOverlay; UpdateBorderOverlay false false])%list.
      cbn [afterLoop effects]. rewrite Hstep, <- app_assoc.
      rewrite modelCalls_app, logs_app, Hm. cbn.
      split; [reflexivity|]. split; [lia|].
      intros Hlog. now rewrite (Hl Hlog).
    + exists extra. split; [exact Hstep|]. split; [lia | exact Hl].
Qed.

(** X11. Whatever the model, the tools and the browser do, [runTask] calls
    the model at most MAX_ITERATIONS = 20 times. *)
Theorem model_calls_are_bounded
        (env : Environment) (log : bool) (prompt : string) :
  modelCalls (effects (runTask env log prompt)) <= MAX_ITERATIONS
  /\ MAX_ITERATIONS = 20.
Proof.
  split; [|reflexivity]. unfold runTask.
  destruct (checkBrowser env log) as [text|before] eqn:Hcheck.
  - cbn. lia.
  - destruct (AgentLoop.checkBrowser_events env log before Hcheck) as [Hnone _].
    destruct (loop_counts env log MAX_ITERATIONS 0 (initialState prompt before))
      as (extra & -> & Hm & _).
    cbn [initialState trace].
    rewrite !AgentLoop.modelCalls_app, Hnone. cbn. lia.
Qed.

(** X12. Without a [log] callback nothing is logged: no warning about the
    browser and no text of a model turn appear among the effects of the
    run. *)
Theorem no_callback_no_logs (env : Environment) (prompt : string) :
  logs (effects (runTask env false prompt)) = [].
Proof.
  unfold runTask, checkBrowser.
  destruct (firstPage env) as [e|].
  - destruct (playwrightMissing e); [reflexivity|].
    destruct (loop_counts env false MAX_ITERATIONS 0
                (initialState prompt ([GetPage] ++ [])%list))
      as (extra & -> & _ & Hl).
    cbn [initialState trace]. rewrite !logs_app, (Hl eq_refl). reflexivity.
  - destruct (loop_counts env false MAX_ITERATIONS 0
                (initialState prompt [GetPage]))
      as (extra & -> & _ & Hl).
    cbn [initialState trace]. rewrite !logs_app, (Hl eq_refl). reflexivity.
Qed.

(** *** The answer of a turn without function calls *)

Lemma join_empty_cons (x : string) (xs : list string) :
  Js.join EmptyString (x :: xs) = x ++ Js.join EmptyString xs.
Proof.
  destruct xs as [|y ys]; [|reflexivity]. cbn.
  induction x as [|c x IH]; cbn; [reflexivity | now rewrite <- IH].
Qed.

(** Parts without text add nothing to the final text. *)
Lemma finalText_texts (ps : list Part) :
  finalText ps = Js.join EmptyString (texts ps).
Proof.
  unfold finalText. induction ps as [|p ps IH]; [reflexivity|].
  cbn [map]. rewrite join_empty_cons, IH.
  destruct p; cbn [text_of Js.nullish texts]; try reflexivity.
  now rewrite join_empty_cons.
Qed.

(** X13. When a model turn of a run holds no function call, [runTask]
    returns the texts of its text parts, joined in order without separator
    (parts of other kinds add nothing), without calling the model again and
    without calling a browser tool. *)
Theorem text_turn_ends_the_run
        (env : Environment) (log : bool) (prompt : string)
        (i : nat) (s : LoopState) (response : Content) :
  reaches env log prompt i s ->
  generateContent env i (fst (observe env i s)) = Candidate response ->
  callsOf response = [] ->
  let run := runTask env log prompt in
  completion run
  = Returned (Js.join EmptyString (texts (Js.nullish (parts response) [])))
  /\ modelCalls (effects run) = S (modelCalls (trace s))
  /\ toolCalls (effects run) = toolCalls (trace s).
Proof.
  intros Hreach Hgen Hnone run. unfold run.
  rewrite (run_step env log prompt i s Hreach).
  rewrite (iteration_completes env log i s response Hgen Hnone).
  cbn [completion effects]. rewrite finalText_texts.
  destruct (observe_events env i s) as (Om & Ot & _).
  destruct (heard_events log (snd (observe env i s))
              (Js.nullish (parts response) [])) as (Hm & Ht & _).
  rewrite modelCalls_app, toolCalls_app, Hm, Ht, Om, Ot. cbn.
  rewrite app_nil_r. repeat split. lia.
Qed.

(** *** The statements after the loop *)

(** X14. When the model returns no content at some turn of a run, [runTask]
    leaves the loop through the statements after it: the run ends with
    [removeOverlay()] and a deactivated border overlay, after that one model
    call and no further one. *)
Theorem no_content_releases_the_overlays
        (env : Environment) (log : bool) (prompt : string)
        (i : nat) (s : LoopState) :
  reaches env log prompt i s ->
  generateContent env i (fst (observe env i s)) = NoContent ->
  let run := runTask env log prompt in
  released (effects run)
  /\ borderActive (effects run) = false
  /\ modelCalls (effects run) = S (modelCalls (trace s)).
Proof.
  intros Hreach Hgen run. unfold run.
  rewrite (run_step env log prompt i s Hreach).
  destruct (iteration_no_content env log i s Hgen) as (last & -> & Hlast).
  destruct (observe_events env i s) as (Om & _ & _).
  assert (Hreleased : released (effects (afterLoop last))).
  { exists (trace last), false. reflexivity. }
  split; [exact Hreleased|]. split; [now apply released_inactive|].
  cbn [afterLoop effects]. rewrite modelCalls_app, Hlast, Om. cbn. lia.
Qed.

(** X15. When the loop uses up its iterations (the browser check does not end
    the run and every model turn asks for tools, none needing confirmation),
    the run ends with [removeOverlay()] and a deactivated border overlay. *)
Theorem exhaustion_releases_the_overlays
        (env : Environment) (log : bool) (prompt : string) :
  (forall e, firstPage env = Some e -> playwrightMissing e = false) ->
  (forall i history, exists response,
      generateContent env i history = Candidate response
      /\ callsOf response <> []
      /\ Forall (fun c => confirmationRequired c = None) (callsOf response)) ->
  released (effects (runTask env log prompt))
  /\ borderActive (effects (runTask env log prompt)) = false.
Proof.
  intros Hbrowser Hmodel.
  assert (Hloop : forall remaining i s,
             released (effects (loop env log remaining i s))).
  { induction remaining as [|remaining IH]; intros i s.
    - exists (trace s), false. reflexivity.
    - destruct (Hmodel i (fst (observe env i s)))
        as (response & Hgen & Hsome & Hfree).
      destruct (iteration_continues env log i s response Hgen Hsome Hfree)
        as (next & Hstep & _).
      cbn [loop]. rewrite Hstep. apply IH. }
  assert (Hrun : released (effects (runTask env log prompt))).
  { unfold runTask, checkBrowser. destruct (firstPage env) as [e|] eqn:He.
    - rewrite (Hbrowser e eq_refl). apply Hloop.
    - apply Hloop. }
  split; [exact Hrun | now apply released_inactive].
Qed.

(** *** Serving the function calls of a turn *)

Lemma ensureUrl_sets_url (env : Environment) (i j : nat) (r : FuncResult) :
  url (fst (ensureUrl env i j r)) <> None.
Proof.
  unfold ensureUrl. destruct (Js.truthy_opt (url r)) eqn:Hurl; cbn.
  - destruct (url r); [discriminate | discriminate Hurl].
  - discriminate.
Qed.

(** When the inner loop runs through, it has added one response per call. *)
Lemma executeTools_answers (env : Environment) (i : nat)
      (calls : list FunctionCall) :
  forall j rs done rs' done',
    executeTools env i j calls rs done = Responses rs' done' ->
    exists new, rs' = (rs ++ new)%list /\ Forall2 answers calls new.
Proof.
  induction calls as [|call calls IH]; intros j rs done rs' done' Hrun.
  - cbn in Hrun. injection Hrun as <- <-. exists []. now rewrite app_nil_r.
  - cbn [executeTools] in Hrun.
    destruct (confirmationRequired call); [discriminate|].
    destruct (callTool env i j call) as [r0 called].
    pose proof (ensureUrl_sets_url env i j r0) as Hurl.
    destruct (ensureUrl env i j r0) as [r1 asked].
    destruct (capture (captureAfter env i j)) as [[shot dom] captured].
    destruct (IH _ _ _ _ _ Hrun) as (new & -> & Hnew).
    exists (responsePart call r1 shot dom :: new). split.
    + now rewrite <- app_assoc.
    + constructor; [|exact Hnew]. unfold answers, responsePart.
      eexists _, _. split; [reflexivity | exact Hurl].
Qed.

(** X16. For the function calls of a turn, none of which needs confirmation,
    the loop builds exactly one function response per call, in the order of
    the calls, each named after its call and each carrying a URL, whatever
    the browser tools return or throw; and it calls the browser tool of every
    call that selects one, in that order. *)
Theorem every_call_gets_its_response
        (env : Environment) (i j : nat) (calls : list FunctionCall)
        (rs : list Part) (done : list Event) :
  Forall (fun c => confirmationRequired c = None) calls ->
  exists new done',
    executeTools env i j calls rs done = Responses (rs ++ new)%list done'
    /\ Forall2 answers calls new
    /\ toolCalls done' = (toolCalls done ++ flat_map selected calls)%list.
Proof.
  intros Hfree.
  destruct (executeTools_responses env i calls Hfree j rs done)
    as (rs' & done' & Hrun & Htools & _).
  destruct (executeTools_answers env i calls j rs done rs' done' Hrun)
    as (new & -> & Hnew).
  exists new, done'. repeat split; assumption.
Qed.

(** X17. A browser tool that throws does not end the turn: its function
    response carries the thrown message as [error], with the URL of the page
    or, when the page cannot be had, "about:blank"; the loop goes on with the
    next call. *)
Theorem failed_tool_becomes_error_response
        (env : Environment) (i j : nat) (call : FunctionCall)
        (rest : list FunctionCall) (rs : list Part) (done : list Event)
        (op : ToolOp) (e : Js.thrown) :
  confirmationRequired call = None ->
  selectTool call = inr (Some op) ->
  runTool env i j op = inl e ->
  exists observation done',
    executeTools env i j (call :: rest) rs done
    = executeTools env i (S j) rest
        (rs ++ [functionResponsePart (name call)
                  {| url := Some (Js.nullish (pageUrl env i j) "about:blank");
                     error := Some (Js.describe e);
                     fields := [] |}
                  observation])%list
        done'
    /\ toolCalls done' = (toolCalls done ++ [op])%list.
Proof.
  intros Hfree Hop Hthrows. cbn [executeTools]. rewrite Hfree.
  unfold callTool. rewrite Hop, Hthrows. unfold ensureUrl, errorResult.
  cbn [url Js.truthy_opt error fields].
  destruct (capture_events (captureAfter env i j)) as (Ct & _ & _).
  destruct (capture (captureAfter env i j)) as [[shot dom] captured].
  cbn [snd] in Ct. unfold responsePart.
  eexists _, _. split; [reflexivity|].
  rewrite !toolCalls_app, Ct. cbn. rewrite ?app_nil_r. reflexivity.
Qed.

Lemma unknown_tool_selects_nothing (call : FunctionCall) (n : string) :
  name call = Some n -> ~ In n knownTools -> selectTool call = inr None.
Proof.
  intros Hname Hunknown. unfold selectTool. rewrite Hname.
  repeat match goal with
         | |- context [n =? ?known] =>
             let E := fresh "E" in
             destruct (n =? known) eqn:E;
             [apply String.eqb_eq in E; elim Hunknown; rewrite E; cbn; tauto|]
         end.
  reflexivity.
Qed.

(** X18. A function call whose name is none of the nine tools of the
    [switch] calls no browser tool: its function response carries the error
    "Unknown tool: " with the name, and the loop goes on with the next
    call. *)
Theorem unknown_tool_is_answered_not_called
        (env : Environment) (i j : nat) (call : FunctionCall)
        (rest : list FunctionCall) (rs : list Part) (done : list Event)
        (n : string) :
  confirmationRequired call = None ->
  name call = Some n ->
  ~ In n knownTools ->
  exists observation done',
    executeTools env i j (call :: rest) rs done
    = executeTools env i (S j) rest
        (rs ++ [functionResponsePart (Some n)
                  {| url := Some (Js.nullish (pageUrl env i j) "about:blank");
                     error := Some ("Unknown tool: " ++ n)%string;
                     fields := [] |}
                  observation])%list
        done'
    /\ toolCalls done' = toolCalls done.
Proof.
  intros Hfree Hname Hunknown. cbn [executeTools]. rewrite Hfree.
  unfold callTool.
  rewrite (unknown_tool_selects_nothing call n Hname Hunknown), Hname.
  unfold ensureUrl, errorResult.
  cbn [url Js.truthy_opt error fields Js.interpolate].
  destruct (capture_events (captureAfter env i j)) as (Ct & _ & _).
  destruct (capture (captureAfter env i j)) as [[shot dom] captured].
  cbn [snd] in Ct. unfold responsePart. rewrite Hname.
  eexists _, _. split; [reflexivity|].
  rewrite !toolCalls_app, Ct. cbn. rewrite ?app_nil_r. reflexivity.
Qed.

(** *** The accessibility tree that is sent along *)

Lemma slice_to_length (n : N) (s : string) :
  (N.of_nat (String.length (Js.slice_to n s)) <= n)%N.
Proof.
  revert n. induction s as [|c s IH]; intros n; cbn [Js.slice_to].
  - cbn. lia.
  - destruct (N.eqb_spec n 0) as [->|Hpos]; [cbn; lia|].
    cbn [String.length]. specialize (IH (N.pred n)). lia.
Qed.

Lemma slice_to_prefix (n : N) (s : string) :
  Js.startsWith s (Js.slice_to n s) = true.
Proof.
  revert n. induction s as [|c s IH]; intros n; cbn [Js.slice_to].
  - reflexivity.
  - destruct (n =? 0)%N; [reflexivity|].
    cbn [Js.startsWith]. now rewrite Ascii.eqb_refl, IH.
Qed.

Lemma slice_to_short (n : N) (s : string) :
  (N.of_nat (String.length s) <= n)%N -> Js.slice_to n s = s.
Proof.
  revert n. induction s as [|c s IH]; intros n Hlen; cbn [Js.slice_to].
  - reflexivity.
  - cbn [String.length] in Hlen.
    destruct (N.eqb_spec n 0) as [->|Hpos]; [lia|].
    rewrite IH; [reflexivity | lia].
Qed.

(** X19. The accessibility tree that a state capture hands on, before a model
    call as after a tool call, never exceeds 1,000,000 characters: it is the
    snapshot text cut to that length, hence the whole text when that is
    short enough, and empty when there is no snapshot. *)
Theorem snapshot_is_capped (c : Capture) :
  let domSnapshot := snd (fst (capture c)) in
  (N.of_nat (String.length domSnapshot) <= 1000000)%N
  /\ (forall screenshot json,
         c = Captured screenshot (Some json) ->
         Js.startsWith json domSnapshot = true
         /\ ((N.of_nat (String.length json) <= 1000000)%N ->
             domSnapshot = json))
  /\ ((forall screenshot json, c <> Captured screenshot (Some json)) ->
      domSnapshot = EmptyString).
Proof.
  destruct c as [| |screenshot|screenshot [json|]]; cbn [capture fst snd];
    (split; [try (cbn; lia); apply slice_to_length|]);
    (split; [intros ? ? [=]; subst |]);
    try (intros _; reflexivity).
  - split; [apply slice_to_prefix | apply slice_to_short].
  - intros Hnot. now elim (Hnot screenshot json).
Qed.

(** *** The history *)

Lemma observe_history (env : Environment) (i : nat) (s : LoopState) :
  exists screenshotBase64 domSnapshot,
    fst (observe env i s)
    = (contents s
       ++ [newContent (currentPrompt s) screenshotBase64 domSnapshot])%list.
Proof.
  unfold observe.
  destruct (capture (captureBefore env i)) as [[shot dom] captured].
  now exists shot, dom.
Qed.

(** What an iteration that continues has done. *)
Lemma iteration_continue_inv (env : Environment) (log : bool) (i : nat)
      (s next : LoopState) :
  iteration env log i s = Continue next ->
  exists response rs,
    generateContent env i (fst (observe env i s)) = Candidate response
    /\ contents next = (fst (observe env i s) ++ [response])%list
    /\ currentPrompt next = promptParts rs
    /\ Forall2 answers (callsOf response) rs
    /\ callsOf response <> [].
Proof.
  unfold iteration, callsOf.
  destruct (observe env i s) as [contents1 asked]. cbn [fst].
  destruct (generateContent env i contents1) as [|response|e];
    try discriminate.
  destruct (functionCallsOf (Js.nullish (parts response) [])) as [|c calls]
    eqn:Hcalls; [discriminate|].
  destruct (executeTools env i 0 (c :: calls) [] _) as [m done|rs done]
    eqn:Hrun; [discriminate|].
  intros [= <-]. cbn [contents currentPrompt].
  destruct (executeTools_answers env i _ _ _ _ _ _ Hrun) as (new & -> & Hnew).
  exists response, new.
  split; [reflexivity|]. split; [reflexivity|]. split; [reflexivity|].
  rewrite Hcalls. split; [exact Hnew | discriminate].
Qed.

(** X20. At the start of iteration [i] of a run the history holds [2 * i]
    turns: each round added the user turn and the model turn, and nothing was
    removed.  The pending prompt is the task text at the first iteration and,
    later, the non-empty list of function responses of the round before; the
    user turn then built from it holds these responses and nothing else, no
    screenshot and no accessibility tree. *)
Theorem history_grows_two_turns_a_round
        (env : Environment) (log : bool) (prompt : string)
        (i : nat) (s : LoopState) :
  reaches env log prompt i s ->
  length (contents s) = 2 * i
  /\ (i = 0 -> currentPrompt s = promptText (systemInstruction ++ prompt))
  /\ (0 < i ->
      exists rs,
        currentPrompt s = promptParts rs
        /\ rs <> []
        /\ fst (observe env i s)
           = (contents s ++ [{| role := "user"; parts := Some rs |}])%list).
Proof.
  induction 1 as [before Hcheck | i s next Hreach IH Hlt Hstep].
  - split; [reflexivity|]. split; [reflexivity | lia].
  - destruct IH as (Hlen & _ & _).
    destruct (iteration_continue_inv env log i s next Hstep)
      as (response & rs & _ & Hcontents & Hprompt & Hrs & Hsome).
    destruct (observe_history env i s) as (shot & dom & Hobs).
    split; [|split; [lia|]].
    + rewrite Hcontents, Hobs, !length_app, Hlen. cbn. lia.
    + intros _. exists rs. split; [exact Hprompt|].
      destruct Hrs as [|call r calls rs' Hr Hrs]; [now elim Hsome|].
      split; [discriminate|].
      destruct (observe_history env (S i) next) as (shot' & dom' & ->).
      rewrite Hprompt. destruct Hr as (resp & obs & -> & _).
      unfold newContent. cbn [isFunctionResponse]. now rewrite app_nil_r.
Qed.

(** *** Runs of the scenarios *)

Lemma missing_playwright_returns_at_once_witness :
  runTask (MoreScenarios.browserDown MoreScenarios.playwrightError
                                     Scenarios.offline)
          true "open the page"
  = {| completion :=
         Returned
           "Error: Playwright is not installed. Please install it to use the browser agent: npm install playwright";
       effects := [GetPage] |}.
Proof.
  apply (missing_playwright_returns_at_once
           (MoreScenarios.browserDown MoreScenarios.playwrightError
                                      Scenarios.offline)
           true "open the page").
  - reflexivity.
  - reflexivity.
Defined.

Lemma launch_failure_only_warns_witness :
  let env :=
    MoreScenarios.browserDown (Js.ThrownOther "launch timed out")
      (Scenarios.modelAlways (Scenarios.turn [textPart "Done."])
                             Scenarios.offline) in
  completion (runTask env true "open the page") = Returned "Done."
  /\ logs (effects (runTask env true "open the page"))
     = ["Warning: Failed to launch browser: launch timed out"; "Done."].
Proof.
  intros env.
  destruct (launch_failure_only_warns
              env true "open the page" (Js.ThrownOther "launch timed out"))
    as (Hsame & rest & Hfine & Hfailed).
  - reflexivity.
  - reflexivity.
  - split.
    + rewrite Hsame. reflexivity.
    + rewrite Hfailed. injection Hfine as <-. reflexivity.
Defined.

Lemma text_turn_ends_the_run_witness :
  let env :=
    Scenarios.modelAlways (Candidate MoreScenarios.mixedTurn)
                          Scenarios.offline in
  completion (runTask env false "check the page") = Returned "All done."
  /\ modelCalls (effects (runTask env false "check the page")) = 1
  /\ toolCalls (effects (runTask env false "check the page")) = [].
Proof.
  intros env.
  apply (text_turn_ends_the_run
           env false "check the page" 0
           (initialState "check the page" [GetPage]) MoreScenarios.mixedTurn).
  - apply reaches_first. reflexivity.
  - reflexivity.
  - reflexivity.
Defined.

Lemma no_content_releases_the_overlays_witness :
  let env := Scenarios.modelAlways NoContent Scenarios.offline in
  released (effects (runTask env false "check the page"))
  /\ borderActive (effects (runTask env false "check the page")) = false
  /\ modelCalls (effects (runTask env false "check the page")) = 1.
Proof.
  intros env.
  apply (no_content_releases_the_overlays
           env false "check the page" 0
           (initialState "check the page" [GetPage])).
  - apply reaches_first. reflexivity.
  - reflexivity.
Defined.

Lemma exhaustion_releases_the_overlays_witness :
  released (effects (runTask MoreScenarios.scrolling false "scroll down"))
  /\ borderActive (effects (runTask MoreScenarios.scrolling false "scroll down"))
     = false.
Proof.
  apply (exhaustion_releases_the_overlays
           MoreScenarios.scrolling false "scroll down").
  - intros e He. discriminate He.
  - intros i history. eexists. split; [reflexivity|]. split.
    + discriminate.
    + repeat constructor.
Defined.

(** Paging down, navigating without arguments and an unknown tool: three
    responses, one browser tool called. *)
Lemma every_call_gets_its_response_witness :
  exists new done,
    executeTools Scenarios.offline 0 0
      [Scenarios.plainCall "pagedown"; Scenarios.plainCall "navigate";
       Scenarios.plainCall "fly"] [] []
    = Responses new done
    /\ length new = 3
    /\ toolCalls done = [pagedown].
Proof.
  destruct (every_call_gets_its_response
              Scenarios.offline 0 0
              [Scenarios.plainCall "pagedown"; Scenarios.plainCall "navigate";
               Scenarios.plainCall "fly"] [] [])
    as (new & done & Hrun & Hnew & Htools).
  - repeat constructor.
  - exists new, done. split; [exact Hrun|]. split; [|exact Htools].
    now rewrite <- (Forall2_length Hnew).
Defined.

Lemma failed_tool_becomes_error_response_witness :
  exists observation done,
    executeTools
      (MoreScenarios.toolsThrow (Js.ThrownError "Target closed")
                                Scenarios.offline)
      0 0 [Scenarios.plainCall "pagedown"] [] []
    = Responses
        [functionResponsePart (Some "pagedown")
           {| url := Some "about:blank";
              error := Some "Target closed";
              fields := [] |}
           observation]
        done.
Proof.
  destruct (failed_tool_becomes_error_response
              (MoreScenarios.toolsThrow (Js.ThrownError "Target closed")
                                        Scenarios.offline)
              0 0 (Scenarios.plainCall "pagedown") [] [] [] pagedown
              (Js.ThrownError "Target closed"))
    as (observation & done & Hrun & _).
  - reflexivity.
  - reflexivity.
  - reflexivity.
  - exists observation, done. exact Hrun.
Defined.

Lemma unknown_tool_is_answered_not_called_witness :
  exists observation done,
    executeTools Scenarios.offline 0 0 [Scenarios.plainCall "fly"] [] []
    = Responses
        [functionResponsePart (Some "fly")
           {| url := Some "about:blank";
              error := Some "Unknown tool: fly";
              fields := [] |}
           observation]
        done
    /\ toolCalls done = [].
Proof.
  destruct (unknown_tool_is_answered_not_called
              Scenarios.offline 0 0 (Scenarios.plainCall "fly") [] [] [] "fly")
    as (observation & done & Hrun & Htools).
  - reflexivity.
  - reflexivity.
  - cbn. intros [H|[H|[H|[H|[H|[H|[H|[H|[H|[]]]]]]]]]]; discriminate H.
  - exists observation, done. split; [exact Hrun | exact Htools].
Defined.

(** The second iteration of the scrolling model starts with a history of two
    turns. *)
Lemma history_grows_two_turns_a_round_witness :
  exists s,
    reaches MoreScenarios.scrolling false "scroll down" 1 s
    /\ length (contents s) = 2.
Proof.
  assert (Hfirst : reaches MoreScenarios.scrolling false "scroll down" 0
                     (initialState "scroll down" [GetPage])).
  { apply reaches_first. reflexivity. }
  destruct (iteration MoreScenarios.scrolling false 0
              (initialState "scroll down" [GetPage]))
    as [next|last|result] eqn:Hstep; [|discriminate Hstep|discriminate Hstep].
  exists next.
  assert (Hnext : reaches MoreScenarios.scrolling false "scroll down" 1 next).
  { apply (reaches_next _ _ _ 0 _ next Hfirst); [|exact Hstep].
    unfold MAX_ITERATIONS. lia. }
  split; [exact Hnext|].
  apply (history_grows_two_turns_a_round
           MoreScenarios.scrolling false "scroll down" 1 next Hnext).
Defined.

End AgentRuns.

(** ** The browser manager *)

Module ManagedBrowser.
Import BrowserManager.
Local Open Scope action_scope.

(** X21. When the manager has no connected browser and Playwright cannot be
    imported, [getPage] rejects with the "Playwright is not installed" error
    and leaves its fields alone; [runTask], whose browser check awaits that
    call, recognises the error and returns "Error: " with its message without
    calling the model. *)
Theorem missing_playwright_is_recognised
        (w : Playwright) (this : Manager)
        (env : BrowserAgent.Environment) (log : bool) (prompt : string) :
  (forall b, browser this = Some b -> isConnected w b = false) ->
  importPlaywright w = false ->
  BrowserAgent.firstPage env = BrowserCheck.caught (outcome (getPage w this)) ->
  outcome (getPage w this) = inl notInstalled
  /\ fields (getPage w this) = this
  /\ BrowserAgent.runTask env log prompt
     = {| BrowserAgent.completion :=
            BrowserAgent.Returned
              "Error: Playwright is not installed. Please install it to use the browser agent: npm install playwright";
          BrowserAgent.effects := [BrowserAgent.GetPage] |}.
Proof.
  intros Hgone Himport Hcheck.
  assert (Hrun : getPage w this
                 = (inl notInstalled, this,
                    match browser this with
                    | Some b => [AskConnected b; Import]
                    | None => [Import]
                    end)).
  { unfold getPage, browserGone, launchBrowser, bind, this_, ask, ret, throw.
    destruct this as [[b|] c p]; cbn [browser] in *.
    - rewrite (Hgone b eq_refl), Himport. reflexivity.
    - rewrite Himport. reflexivity. }
  rewrite Hrun in *. cbn [outcome fields fst snd BrowserCheck.caught] in *.
  split; [reflexivity|]. split; [reflexivity|].
  unfold BrowserAgent.runTask, BrowserAgent.checkBrowser.
  rewrite Hcheck. reflexivity.
Qed.

(** X22. With a connected browser and an open page, [getPage] returns that
    page and changes nothing: it asks Playwright only whether the browser is
    connected and whether the page is closed. *)
Theorem open_page_is_reused
        (w : Playwright) (this : Manager) (b : Browser) (p : Page) :
  browser this = Some b ->
  isConnected w b = true ->
  page this = Some p ->
  isClosed w p = false ->
  getPage w this = (inr p, this, [AskConnected b; AskClosed p]).
Proof.
  intros Hb Hconnected Hp Hopen.
  unfold getPage, browserGone, pageGone, bind, this_, ask, ret.
  rewrite Hb, Hconnected. cbn. rewrite Hp, Hopen. cbn. now rewrite Hp.
Qed.

(** X23. With no browser recorded and a working Playwright, [getPage] launches
    a browser, opens a context and a page in it, records all three, registers
    the two event handlers and returns the page. *)
Theorem browser_is_launched_on_demand
        (w : Playwright) (this : Manager)
        (b : Browser) (c : BrowserContext) (p : Page) :
  browser this = None ->
  importPlaywright w = true ->
  launch w = inr b ->
  newContext w b = inr c ->
  newPage w 0 c = inr p ->
  isClosed w p = false ->
  getPage w this
  = (inr p,
     {| browser := Some b; context := Some c; page := Some p |},
     [Import; Launch; NewContext b; NewPage c; OnClose p; OnDisconnected b;
      AskClosed p]).
Proof.
  intros Hnone Himport Hlaunch Hcontext Hpage Hopen.
  unfold getPage, browserGone, launchBrowser, pageGone, bind, this_, ask,
    await, ret, setBrowser, setContext, setPage.
  rewrite Hnone, Himport, Hlaunch. cbn. rewrite Hcontext. cbn.
  rewrite Hpage. cbn. rewrite Hopen. reflexivity.
Qed.

(** X24. After the page was closed (its handler cleared the field) while the
    browser stays connected, [getPage] opens a new page in the recorded
    context and returns it: Playwright is not imported again and no browser
    is launched. *)
Theorem closed_page_is_reopened
        (w : Playwright) (this : Manager)
        (b : Browser) (c : BrowserContext) (p : Page) :
  browser this = Some b ->
  isConnected w b = true ->
  context this = Some c ->
  newPage w 0 c = inr p ->
  getPage w (onPageClose this)
  = (inr p,
     {| browser := Some b; context := Some c; page := Some p |},
     [AskConnected b; NewPage c]).
Proof.
  intros Hb Hconnected Hc Hpage.
  unfold getPage, browserGone, pageGone, reopenPage, bind, this_, ask, await,
    ret, setContext, setPage, onPageClose.
  cbn [browser context page]. rewrite Hb, Hconnected. cbn.
  rewrite Hc. cbn. rewrite Hpage. cbn. rewrite ?Hb, ?Hc. reflexivity.
Qed.

(** X25. Every call of [getPage] ends in one of two ways.  Either it returns
    a page, which is then the recorded page of a manager that has a browser
    recorded; or it rejects, and then with the missing Playwright error or
    with what Playwright's [launch], [newContext] or [newPage] threw.  Run
    without an event handler firing in between, it never rejects with its
    own "Failed to create page". *)
Theorem getPage_returns_its_page_or_a_playwright_error
        (w : Playwright) (this : Manager) :
  match outcome (getPage w this) with
  | inr p =>
      page (fields (getPage w this)) = Some p
      /\ browser (fields (getPage w this)) <> None
  | inl e =>
      (importPlaywright w = false /\ e = notInstalled)
      \/ launch w = inl e
      \/ (exists b, newContext w b = inl e)
      \/ (exists k c, newPage w k c = inl e)
  end.
Proof.
  unfold getPage, browserGone, launchBrowser, pageGone, reopenPage, bind,
    this_, ask, await, ret, throw, setBrowser, setContext, setPage, outcome,
    fields.
  destruct this as [[b|] [c|] [p|]]; cbn [browser context page];
    repeat (match goal with
            | |- context [importPlaywright w] =>
                destruct (importPlaywright w) eqn:?
            | |- context [isConnected w ?x] => destruct (isConnected w x) eqn:?
            | |- context [isClosed w ?x] => destruct (isClosed w x) eqn:?
            | |- context [launch w] => destruct (launch w) eqn:?
            | |- context [newContext w ?x] => destruct (newContext w x) eqn:?
            | |- context [newPage w ?k ?x] => destruct (newPage w k x) eqn:?
            end; cbn);
    first [ split; [reflexivity | discriminate]
          | left; split; reflexivity
          | right; left; reflexivity
          | right; right; left; eexists; eassumption
          | right; right; right; eexists _, _; eassumption ].
Qed.

(** *** Calls of the manager *)

Lemma missing_playwright_is_recognised_witness :
  BrowserAgent.runTask
    (MoreScenarios.browserDown MoreScenarios.playwrightError Scenarios.offline)
    false "open the page"
  = {| BrowserAgent.completion :=
         BrowserAgent.Returned
           "Error: Playwright is not installed. Please install it to use the browser agent: npm install playwright";
       BrowserAgent.effects := [BrowserAgent.GetPage] |}.
Proof.
  apply (missing_playwright_is_recognised
           BrowserCheck.bare fresh
           (MoreScenarios.browserDown MoreScenarios.playwrightError
                                      Scenarios.offline)
           false "open the page").
  - discriminate.
  - reflexivity.
  - reflexivity.
Defined.

Lemma open_page_is_reused_witness :
  getPage (BrowserCheck.working 1 2 3)
          {| browser := Some 1; context := Some 2; page := Some 3 |}
  = (inr 3, {| browser := Some 1; context := Some 2; page := Some 3 |},
     [AskConnected 1; AskClosed 3]).
Proof.
  apply (open_page_is_reused (BrowserCheck.working 1 2 3) _ 1 3);
    reflexivity.
Defined.

Lemma browser_is_launched_on_demand_witness :
  getPage (BrowserCheck.working 1 2 3) fresh
  = (inr 3, {| browser := Some 1; context := Some 2; page := Some 3 |},
     [Import; Launch; NewContext 1; NewPage 2; OnClose 3; OnDisconnected 1;
      AskClosed 3]).
Proof.
  apply (browser_is_launched_on_demand (BrowserCheck.working 1 2 3) fresh 1 2 3);
    reflexivity.
Defined.

Lemma closed_page_is_reopened_witness :
  getPage (BrowserCheck.working 1 2 4)
          (onPageClose {| browser := Some 1; context := Some 2; page := Some 3 |})
  = (inr 4, {| browser := Some 1; context := Some 2; page := Some 4 |},
     [AskConnected 1; NewPage 2]).
Proof.
  apply (closed_page_is_reopened (BrowserCheck.working 1 2 4) _ 1 2 4);
    reflexivity.
Defined.

End ManagedBrowser.

(** ** The project registry *)

Module RegistryFacts.
Import ProjectRegistry.

(** *** The shape of a slug *)

Lemma isDash_eq (c : ascii) : isDash c = true -> c = dash.
Proof. apply Ascii.eqb_eq. Qed.

Lemma dash_is_no_slugChar (c : ascii) :
  isDash c = true -> isSlugChar c = false.
Proof. intros H. apply isDash_eq in H. now subst. Qed.

Lemma dashOthers_letters (s : string) : slugLetters (dashOthers s) = true.
Proof.
  induction s as [|c s IH]; [reflexivity|]. cbn [dashOthers slugLetters].
  rewrite IH, andb_true_r.
  destruct (isSlugChar c) eqn:Hc; [now rewrite Hc | reflexivity].
Qed.

Lemma collapse_apart (s : string) :
  slugLetters s = true -> dashesApart (collapse s) = true.
Proof.
  induction s as [|c s IH]; [reflexivity|]. cbn [slugLetters].
  intros H. apply andb_true_iff in H. destruct H as [Hc Hs].
  specialize (IH Hs). cbn [collapse].
  destruct (isDash c) eqn:Hdash.
  - destruct s as [|d s'].
    + cbn [dashesApart]. now rewrite ?Hdash, ?Hc.
    + destruct (isDash d) eqn:Hd; [exact IH|].
      cbn [dashesApart]. rewrite ?Hdash, ?Hc, ?IH.
      cbn [collapse]. rewrite Hd. now rewrite Hd.
  - cbn [dashesApart]. now rewrite ?Hdash, ?Hc, ?IH.
Qed.

Lemma dropStart_apart (s : string) :
  dashesApart s = true ->
  dashesApart (dropStart s) = true /\ startsDash (dropStart s) = false.
Proof.
  destruct s as [|c s]; [split; reflexivity|]. cbn [dashesApart dropStart].
  intros H. apply andb_true_iff in H. destruct H as [H Hs].
  apply andb_true_iff in H. destruct H as [Hc Hnext].
  destruct (isDash c) eqn:Hdash.
  - split; [exact Hs|]. destruct s as [|d s']; [reflexivity|].
    cbn [startsDash]. now apply negb_true_iff.
  - split; [|exact Hdash]. cbn [dashesApart]. now rewrite ?Hdash, ?Hc, ?Hs.
Qed.

Lemma dropEnd_head (d : ascii) (s : string) :
  isDash d = false -> exists t, dropEnd (String d s) = String d t.
Proof.
  intros Hd. destruct s as [|e s']; cbn [dropEnd].
  - rewrite Hd. now exists EmptyString.
  - now eexists.
Qed.

Lemma dropEnd_inside (s : string) :
  dashesApart s = true -> dashesInside (dropEnd s) = true.
Proof.
  induction s as [|c s IH]; [reflexivity|]. cbn [dashesApart].
  intros H. apply andb_true_iff in H. destruct H as [H Hs].
  apply andb_true_iff in H. destruct H as [Hc Hnext].
  specialize (IH Hs). destruct s as [|d s'].
  - cbn [dropEnd]. destruct (isDash c) eqn:Hdash; [reflexivity|].
    cbn [dashesInside]. now rewrite ?Hdash, ?Hc.
  - change (dropEnd (String c (String d s')))
      with (String c (dropEnd (String d s'))).
    cbn [dashesInside]. rewrite Hc, IH, andb_true_r. cbn [andb].
    destruct (isDash c) eqn:Hdash; [|reflexivity].
    apply negb_true_iff in Hnext.
    destruct (dropEnd_head d s' Hnext) as [t ->]. now rewrite Hnext.
Qed.

Lemma dropEnd_start (s : string) :
  startsDash s = false -> startsDash (dropEnd s) = false.
Proof.
  destruct s as [|c [|d s']].
  - reflexivity.
  - cbn [startsDash dropEnd]. intros Hc. rewrite Hc. exact Hc.
  - intros Hc. exact Hc.
Qed.

Lemma slugify_shaped (text : string) : slugShaped (slugify text) = true.
Proof.
  unfold slugify.
  set (apart := collapse (dashOthers (toLowerCase text))).
  assert (Hapart : dashesApart apart = true)
    by apply collapse_apart, dashOthers_letters.
  destruct (dropStart_apart apart Hapart) as [Hinner Hstart].
  pose proof (dropEnd_inside _ Hinner) as Hinside.
  pose proof (dropEnd_start _ Hstart) as Hhead.
  destruct (dropEnd (dropStart apart)) as [|c rest]; [reflexivity|].
  cbn [Js.truthy slugShaped]. cbn [startsDash] in Hhead.
  now rewrite Hhead, Hinside.
Qed.

(** *** A slug is left as it is *)

Lemma lower_letter (c : ascii) :
  isSlugChar c || isDash c = true -> lower c = c.
Proof.
  intros H. apply orb_true_iff in H. destruct H as [H|H].
  - unfold isSlugChar, lower in *. set (n := nat_of_ascii c) in *.
    destruct (Nat.leb 65 n && Nat.leb n 90) eqn:Hup; [|reflexivity].
    exfalso. apply andb_true_iff in Hup. destruct Hup as [U1 U2].
    apply Nat.leb_le in U1. apply Nat.leb_le in U2.
    apply orb_true_iff in H.
    destruct H as [H|H]; apply andb_true_iff in H; destruct H as [L1 L2];
      apply Nat.leb_le in L1; apply Nat.leb_le in L2; lia.
  - apply isDash_eq in H. now subst.
Qed.

Lemma inside_apart (s : string) :
  dashesInside s = true -> dashesApart s = true.
Proof.
  induction s as [|c s IH]; [reflexivity|]. cbn [dashesInside dashesApart].
  intros H. apply andb_true_iff in H. destruct H as [H Hs].
  apply andb_true_iff in H. destruct H as [Hc Hnext].
  rewrite Hc, (IH Hs), andb_true_r. cbn [andb].
  destruct (isDash c); [|reflexivity]. destruct s; [discriminate | exact Hnext].
Qed.

Lemma apart_letters (s : string) :
  dashesApart s = true -> slugLetters s = true.
Proof.
  induction s as [|c s IH]; [reflexivity|]. cbn [dashesApart slugLetters].
  intros H. apply andb_true_iff in H. destruct H as [H Hs].
  apply andb_true_iff in H. destruct H as [Hc _]. now rewrite Hc, (IH Hs).
Qed.

Lemma toLowerCase_letters (s : string) :
  slugLetters s = true -> toLowerCase s = s.
Proof.
  induction s as [|c s IH]; [reflexivity|]. cbn [slugLetters toLowerCase].
  intros H. apply andb_true_iff in H. destruct H as [Hc Hs].
  now rewrite (lower_letter c Hc), (IH Hs).
Qed.

Lemma dashOthers_same (s : string) :
  slugLetters s = true -> dashOthers s = s.
Proof.
  induction s as [|c s IH]; [reflexivity|]. cbn [slugLetters dashOthers].
  intros H. apply andb_true_iff in H. destruct H as [Hc Hs].
  rewrite (IH Hs). destruct (isSlugChar c) eqn:Hslug; [reflexivity|].
  cbn [orb] in Hc. now rewrite (isDash_eq c Hc).
Qed.

Lemma collapse_same (s : string) : dashesApart s = true -> collapse s = s.
Proof.
  induction s as [|c s IH]; [reflexivity|]. cbn [dashesApart collapse].
  intros H. apply andb_true_iff in H. destruct H as [H Hs].
  apply andb_true_iff in H. destruct H as [_ Hnext].
  rewrite (IH Hs). destruct (isDash c); [|reflexivity].
  destruct s as [|d s']; [reflexivity|].
  apply negb_true_iff in Hnext. now rewrite Hnext.
Qed.

Lemma dropEnd_same (s : string) : dashesInside s = true -> dropEnd s = s.
Proof.
  induction s as [|c s IH]; [reflexivity|]. cbn [dashesInside].
  intros H. apply andb_true_iff in H. destruct H as [H Hs].
  apply andb_true_iff in H. destruct H as [_ Hnext].
  destruct s as [|d s'].
  - cbn [dropEnd]. destruct (isDash c); [discriminate | reflexivity].
  - change (dropEnd (String c (String d s')))
      with (String c (dropEnd (String d s'))).
    now rewrite (IH Hs).
Qed.

Lemma slugify_same (s : string) : slugShaped s = true -> slugify s = s.
Proof.
  destruct s as [|c rest] eqn:Hs; [discriminate|]. rewrite <- Hs.
  intros Hshape. unfold slugShaped in Hshape. rewrite Hs in Hshape.
  rewrite <- Hs in Hshape.
  apply andb_true_iff in Hshape. destruct Hshape as [Hhead Hinside].
  apply negb_true_iff in Hhead.
  pose proof (inside_apart s Hinside) as Hapart.
  pose proof (apart_letters s Hapart) as Hletters.
  unfold slugify.
  rewrite (toLowerCase_letters s Hletters), (dashOthers_same s Hletters),
    (collapse_same s Hapart).
  assert (Hstart : dropStart s = s).
  { rewrite Hs. cbn [dropStart]. now rewrite Hhead. }
  rewrite Hstart, (dropEnd_same s Hinside). now rewrite Hs.
Qed.

(** X26. Whatever the text, [slugify] gives a slug: a non-empty string of
    lower-case letters, digits and dashes that neither starts nor ends with
    a dash and has no two dashes in a row; and it leaves a slug as it is, so
    that applying it twice is applying it once. *)
Theorem slugify_gives_a_slug (text : string) :
  slugShaped (slugify text) = true
  /\ slugify (slugify text) = slugify text
  /\ (slugShaped text = true -> slugify text = text).
Proof.
  split; [apply slugify_shaped|]. split; [|apply slugify_same].
  apply slugify_same, slugify_shaped.
Qed.

(** *** A free identifier *)

Lemma has_In (ids : list string) (c : string) :
  has ids c = true <-> In c ids.
Proof.
  unfold has. rewrite existsb_exists. split.
  - intros (x & Hin & Heq). apply String.eqb_eq in Heq. now subst.
  - intros Hin. exists c. split; [exact Hin | apply String.eqb_refl].
Qed.

Lemma has_not_In (ids : list string) (c : string) :
  has ids c = false <-> ~ In c ids.
Proof.
  rewrite <- has_In. destruct (has ids c); split; congruence.
Qed.

Lemma append_cancel (a b c : string) : a ++ b = a ++ c -> b = c.
Proof.
  induction a as [|x a IH]; cbn; [auto|]. intros [= H]. auto.
Qed.

Lemma append_length (a b : string) :
  String.length (a ++ b) = String.length a + String.length b.
Proof.
  induction a as [|x a IH]; cbn; [reflexivity | now rewrite IH].
Qed.

Lemma decimal_inj (j k : nat) : Js.decimal j = Js.decimal k -> j = k.
Proof.
  unfold Js.decimal. intros H.
  apply DecimalNat.Unsigned.to_uint_inj.
  assert (Hsome : Some (Nat.to_uint j) = Some (Nat.to_uint k)).
  { rewrite <- !DecimalString.NilEmpty.usu. now rewrite H. }
  now injection Hsome.
Qed.

Lemma numbered_inj (slug : string) (j k : nat) :
  numbered slug j = numbered slug k -> j = k.
Proof.
  unfold numbered. intros H.
  apply append_cancel in H. apply (append_cancel "-") in H.
  now apply decimal_inj.
Qed.

Lemma numbered_longer (slug : string) (j : nat) : numbered slug j <> slug.
Proof.
  unfold numbered. intros H.
  apply (f_equal String.length) in H. rewrite append_length in H.
  cbn in H. lia.
Qed.

Lemma NoDup_numbered (slug : string) (start len : nat) :
  NoDup (slug :: map (numbered slug) (seq start len)).
Proof.
  constructor.
  - rewrite in_map_iff. intros (j & Hj & _). now apply numbered_longer in Hj.
  - revert start. induction len as [|len IH]; intros start; cbn.
    + constructor.
    + constructor; [|apply IH].
      rewrite in_map_iff. intros (j & Hj & Hin).
      apply numbered_inj in Hj. apply in_seq in Hin. lia.
Qed.

(** What the loop returns is free; it is the candidate it was entered with,
    or a numbered one reached after all the earlier ones were found taken. *)
Lemma firstFree_some (ids : list string) (slug : string) :
  forall fuel candidate counter id,
    firstFree fuel ids slug candidate counter = Some id ->
    ~ In id ids
    /\ (id = candidate
        \/ (In candidate ids
            /\ exists j,
                 counter <= j < counter + fuel
                 /\ id = numbered slug j
                 /\ forall j', counter <= j' < j -> In (numbered slug j') ids)).
Proof.
  induction fuel as [|fuel IH]; intros candidate counter id; cbn [firstFree];
    destruct (has ids candidate) eqn:Hhas;
    try discriminate;
    try (intros [= <-]; split; [now apply has_not_In | now left]).
  intros Hrun. apply has_In in Hhas.
  destruct (IH _ _ _ Hrun) as [Hfree [->|(Htaken & j & Hj & -> & Hbelow)]].
  - split; [exact Hfree|]. right. split; [exact Hhas|].
    exists counter. split; [lia|]. split; [reflexivity|]. intros j' Hj'. lia.
  - split; [exact Hfree|]. right. split; [exact Hhas|].
    exists j. split; [lia|]. split; [reflexivity|].
    intros j' Hj'. destruct (Nat.eq_dec j' counter) as [->|Hne].
    + exact Htaken.
    + apply Hbelow. lia.
Qed.

(** When the rounds run out, every candidate tried was taken. *)
Lemma firstFree_none (ids : list string) (slug : string) :
  forall fuel candidate counter,
    firstFree fuel ids slug candidate counter = None ->
    In candidate ids
    /\ forall j, counter <= j < counter + fuel -> In (numbered slug j) ids.
Proof.
  induction fuel as [|fuel IH]; intros candidate counter; cbn [firstFree];
    destruct (has ids candidate) eqn:Hhas; try discriminate.
  - intros _. apply has_In in Hhas. split; [exact Hhas|]. intros j Hj. lia.
  - intros Hrun. apply has_In in Hhas. split; [exact Hhas|].
    destruct (IH _ _ Hrun) as [Hnext Hrest].
    intros j Hj. destruct (Nat.eq_dec j counter) as [->|Hne].
    + exact Hnext.
    + apply Hrest. lia.
Qed.

(** As many rounds as there are identifiers are enough. *)
Lemma firstFree_ends (ids : list string) (slug : string) :
  firstFree (length ids) ids slug slug 1 <> None.
Proof.
  intros Hnone. destruct (firstFree_none ids slug _ _ _ Hnone) as [Hslug Hall].
  pose proof (NoDup_numbered slug 1 (length ids)) as Hdistinct.
  assert (Hincl : incl (slug :: map (numbered slug) (seq 1 (length ids))) ids).
  { intros x [<-|Hx]; [exact Hslug|].
    apply in_map_iff in Hx. destruct Hx as (j & <- & Hj).
    apply in_seq in Hj. apply Hall. lia. }
  pose proof (NoDup_incl_length Hdistinct Hincl) as Hlen.
  cbn [length] in Hlen. rewrite length_map, length_seq in Hlen. lia.
Qed.

(** X27. [generateUniqueShortId] always ends and returns an identifier that
    no project of the registry has: the slug of the project's base name when
    that is free, and otherwise the slug with the least counter 1, 2, ... for
    which the numbered identifier is free. *)
Theorem generated_id_is_free
        (basename : string -> string) (projectPath : string)
        (existing : Projects) :
  let slug := slugify (Js.or_else (Some (basename projectPath)) "project") in
  exists id,
    generateUniqueShortId basename projectPath existing = Some id
    /\ ~ In id (values existing)
    /\ (id = slug
        \/ (In slug (values existing)
            /\ exists j,
                 1 <= j <= length existing
                 /\ id = slug ++ "-" ++ Js.decimal j
                 /\ forall j', 1 <= j' < j ->
                      In (slug ++ "-" ++ Js.decimal j') (values existing))).
Proof.
  intros slug. unfold generateUniqueShortId. fold slug.
  destruct (firstFree (length (values existing)) (values existing) slug slug 1)
    as [id|] eqn:Hrun; [|now apply firstFree_ends in Hrun].
  exists id. split; [reflexivity|].
  destruct (firstFree_some _ _ _ _ _ _ Hrun)
    as [Hfree [->|(Htaken & j & Hj & -> & Hbelow)]].
  - split; [exact Hfree | now left].
  - split; [exact Hfree|]. right. split; [exact Htaken|].
    exists j. unfold values in Hj. rewrite length_map in Hj.
    split; [lia|]. split; [reflexivity | exact Hbelow].
Qed.

(** *** The registry file *)

Lemma get_set_same (key value : string) (projects : Projects) :
  get key (set key value projects) = Some value.
Proof.
  induction projects as [|[k v] rest IH]; cbn [set get].
  - now rewrite String.eqb_refl.
  - destruct (k =? key) eqn:Hk; cbn [get]; now rewrite Hk.
Qed.

Lemma get_values (key value : string) (projects : Projects) :
  get key projects = Some value -> In value (values projects).
Proof.
  induction projects as [|[k v] rest IH]; cbn [get values map snd];
    [discriminate|].
  destruct (k =? key); [intros [= ->]; now left | intros H; right; now apply IH].
Qed.

Lemma values_set (key value x : string) (projects : Projects) :
  In x (values (set key value projects)) ->
  x = value \/ In x (values projects).
Proof.
  induction projects as [|[k v] rest IH]; cbn [set values map snd].
  - intros [<-|[]]. now left.
  - destruct (k =? key); cbn [map snd].
    + intros [<-|Hx]; [now left | right; now right].
    + intros [<-|Hx]; [right; now left|].
      destruct (IH Hx) as [->|Hin]; [now left | right; now right].
Qed.

Lemma set_distinct (key value : string) (projects : Projects) :
  NoDup (values projects) ->
  ~ In value (values projects) ->
  NoDup (values (set key value projects)).
Proof.
  induction projects as [|[k v] rest IH]; cbn [set values map snd];
    intros Hdistinct Hfree.
  - constructor; [intros [] | constructor].
  - inversion Hdistinct as [|? ? Hv Hrest]; subst.
    destruct (k =? key); cbn [map snd].
    + constructor; [|exact Hrest]. intros Hin. apply Hfree. now right.
    + constructor.
      * intros Hin. apply values_set in Hin. destruct Hin as [->|Hin].
        -- apply Hfree. now left.
        -- now apply Hv.
      * apply IH; [exact Hrest|]. intros Hin. apply Hfree. now right.
Qed.

(** With distinct identifiers, an identifier tells the project. *)
Lemma get_inj (projects : Projects) (q q' shared : string) :
  NoDup (values projects) ->
  get q projects = Some shared ->
  get q' projects = Some shared ->
  q = q'.
Proof.
  induction projects as [|[k v] rest IH]; cbn [get values map snd];
    [discriminate|].
  intros Hdistinct. inversion Hdistinct as [|? ? Hv Hrest]; subst.
  destruct (String.eqb_spec k q) as [Hq|Hq];
    destruct (String.eqb_spec k q') as [Hq'|Hq'].
  - congruence.
  - intros [= ->] Hin. apply get_values in Hin. now elim Hv.
  - intros Hin [= ->]. apply get_values in Hin. now elim Hv.
  - now apply IH.
Qed.

Lemma shaped_truthy (s : string) : slugShaped s = true -> Js.truthy s = true.
Proof. destruct s; [discriminate | reflexivity]. Qed.

(** A generated identifier is free and not empty. *)
Lemma generated (basename : string -> string) (projectPath : string)
      (existing : Projects) :
  exists id,
    generateUniqueShortId basename projectPath existing = Some id
    /\ ~ In id (values existing)
    /\ Js.truthy id = true.
Proof.
  unfold generateUniqueShortId.
  set (slug := slugify (Js.or_else (Some (basename projectPath)) "project")).
  assert (Hslug : Js.truthy slug = true) by apply shaped_truthy, slugify_shaped.
  destruct (firstFree (length (values existing)) (values existing) slug slug 1)
    as [id|] eqn:Hrun; [|now apply firstFree_ends in Hrun].
  exists id. split; [reflexivity|].
  destruct (firstFree_some _ _ _ _ _ _ Hrun) as [Hfree [->|(_ & j & _ & -> & _)]].
  - split; assumption.
  - split; [exact Hfree|]. unfold numbered.
    destruct slug; [discriminate | reflexivity].
Qed.

Section WithPlatform.
Context {paths : PathApi}.
Variable basename : string -> string.
Variable win32 : bool.

(** What [getShortId] does on a file that holds registry data or none. *)
Lemma getShortId_cases (write : Write) (file : File) (projectPath : string) :
  (forall e, file <> Shapeless e) ->
  let projects := load file in
  let normalizedPath := normalizePath win32 projectPath in
  (exists id,
      get normalizedPath projects = Some id
      /\ Js.truthy id = true
      /\ getShortId basename win32 write file projectPath
         = Some (inr id, file))
  \/ (exists id,
         Js.truthy_opt (get normalizedPath projects) = false
         /\ generateUniqueShortId basename normalizedPath projects = Some id
         /\ ~ In id (values projects)
         /\ Js.truthy id = true
         /\ getShortId basename win32 write file projectPath
            = match write with
              | Written =>
                  Some (inr id, Holding (set normalizedPath id projects))
              | WriteFails => Some (inr id, file)
              | MkdirThrows e => Some (inl e, file)
              end).
Proof.
  intros Hshape projects normalizedPath.
  assert (Hrun : getShortId basename win32 write file projectPath
                 = if Js.truthy_opt (get normalizedPath projects) then
                     Some (inr (Js.nullish (get normalizedPath projects)
                                           EmptyString), file)
                   else
                     match generateUniqueShortId basename normalizedPath
                             projects with
                     | None => None
                     | Some shortId =>
                         match save write
                                 (set normalizedPath shortId projects) file with
                         | (Some e, file') => Some (inl e, file')
                         | (None, file') => Some (inr shortId, file')
                         end
                     end).
  { destruct file; try reflexivity. now elim (Hshape e). }
  rewrite Hrun.
  destruct (get normalizedPath projects) as [id|] eqn:Hget; cbn [Js.truthy_opt].
  - destruct (Js.truthy id) eqn:Hid.
    + left. exists id. repeat split. exact Hid.
    + right. destruct (generated basename normalizedPath projects)
        as (new & -> & Hfree & Hnew).
      exists new. destruct write; repeat split; assumption.
  - right. destruct (generated basename normalizedPath projects)
      as (new & -> & Hfree & Hnew).
    exists new. destruct write; repeat split; assumption.
Qed.

(** X28. Once [getShortId] has given a project its identifier and written
    the registry, asking again, for the same path and however the writing
    would fare, gives the same identifier and leaves the file as it is. *)
Theorem registered_id_is_kept
        (file file' : File) (projectPath id : string) :
  getShortId basename win32 Written file projectPath = Some (inr id, file') ->
  forall write,
    getShortId basename win32 write file' projectPath = Some (inr id, file').
Proof.
  intros Hfirst write.
  assert (Hshape : forall e, file <> Shapeless e).
  { intros e ->. discriminate Hfirst. }
  destruct (getShortId_cases Written file projectPath Hshape)
    as [(old & Hget & Hold & Hrun)|(new & _ & _ & _ & Hnew & Hrun)];
    rewrite Hrun in Hfirst; injection Hfirst as <- <-.
  - destruct (getShortId_cases write file projectPath Hshape)
      as [(old' & Hget' & _ & Hrun')|(new & Hnone & _)].
    + rewrite Hrun'. congruence.
    + rewrite Hget in Hnone. cbn in Hnone. congruence.
  - set (np := normalizePath win32 projectPath) in *.
    assert (Hheld : forall e,
               Holding (set np new (load file)) <> Shapeless e)
      by discriminate.
    destruct (getShortId_cases write _ projectPath Hheld)
      as [(old' & Hget' & _ & Hrun')|(other & Hnone & _)].
    + rewrite Hrun'. cbn [load] in Hget'. fold np in Hget'.
      rewrite get_set_same in Hget'. congruence.
    + cbn [load] in Hnone. fold np in Hnone.
      rewrite get_set_same in Hnone. cbn in Hnone. congruence.
Qed.

(** X29. [getShortId] keeps the identifiers of the registry distinct: when no
    two projects of the file share an identifier before the call, none do
    after it, so that in the file it leaves an identifier belongs to one
    project path only. *)
Theorem ids_stay_distinct
        (write : Write) (file file' : File) (projectPath id : string) :
  NoDup (values (load file)) ->
  getShortId basename win32 write file projectPath = Some (inr id, file') ->
  NoDup (values (load file'))
  /\ forall q q' shared,
       get q (load file') = Some shared ->
       get q' (load file') = Some shared ->
       q = q'.
Proof.
  intros Hdistinct Hrun.
  assert (Hafter : NoDup (values (load file'))).
  { assert (Hshape : forall e, file <> Shapeless e).
    { intros e ->. discriminate Hrun. }
    destruct (getShortId_cases write file projectPath Hshape)
      as [(old & _ & _ & Hcase)|(new & _ & _ & Hfree & _ & Hcase)];
      rewrite Hcase in Hrun.
    - injection Hrun as _ <-. exact Hdistinct.
    - destruct write; try discriminate Hrun; injection Hrun as _ <-.
      + cbn [load]. now apply set_distinct.
      + exact Hdistinct. }
  split; [exact Hafter|]. intros q q' shared. now apply get_inj.
Qed.


End WithPlatform.

(** *** The registry of the tests, on POSIX paths *)

Lemma registered_id_is_kept_witness :
  getShortId (paths := posix "/") posixBasename false WriteFails
    (Holding [("/path/to/project-a", "project-a")]) "/path/to/project-a"
  = Some (inr "project-a", Holding [("/path/to/project-a", "project-a")]).
Proof.
  apply (registered_id_is_kept (paths := posix "/") posixBasename false
           Missing).
  reflexivity.
Defined.

(** The third project named gemini: its identifier is gemini-2, and the three
    identifiers of the file differ. *)
Lemma ids_stay_distinct_witness :
  NoDup ["gemini"; "gemini-1"; "gemini-2"].
Proof.
  apply (ids_stay_distinct (paths := posix "/") posixBasename false Written
           (Holding [("/path/one/gemini", "gemini");
                     ("/path/two/gemini", "gemini-1")])
           (Holding [("/path/one/gemini", "gemini");
                     ("/path/two/gemini", "gemini-1");
                     ("/path/three/gemini", "gemini-2")])
           "/path/three/gemini" "gemini-2").
  - repeat constructor; cbn; intuition discriminate.
  - reflexivity.
Defined.


End RegistryFacts.
